(** * Property Pulse: the transport page, pages/3_Transport_Info.py

    A shallow embedding of the geocode resolver [get_google_geocode_data], the
    distance function [haversine], the nearby-transport aggregator
    [get_google_places_data], the lookup flow that calls them, the map
    [create_transport_map] and what the page shows of a lookup with the sort
    of the station details tab, followed by the properties the specification
    states about them and by further properties of the code.

    Conventions of the embedding.
    - A Python [float] is a primitive binary64 float; [+ - * /] and [sqrt] are
      the IEEE operations.  The functions of the [math] module that no IEEE
      operation gives ([sin], [cos], [atan2]) and float exponentiation are
      fields of a record [mathlib]; a field returns [Raise] where Python
      raises.
    - A JSON object is a record whose fields are options: [None] is an absent
      key.  A key that is present carries a value of the documented shape.
    - Text is an ASCII [string]; [str.lower] lowers the letters A to Z.
    - An exception is a value [exn]; [try]/[except] is a match on [result].
    - [all_places_dict] is an insertion-ordered association list: the code
      only ever adds a key that is absent and reads the values in order.
    - The network is a function from the request to its outcome; the requests
      issued and the messages shown are collected in a log of [event]s.
    - [st.cache_data] is left out: the functions are modelled as one call
      that is not served from the cache.
    - The objects of the map library and the elements of the page are
      records and constructors that hold the arguments of the calls, in the
      order of the calls.  The text of a float ([str], [format]) is a
      parameter; the text of an [int] is its decimal writing. *)

From Stdlib Require Import Bool List String Ascii ZArith Lia Arith.
From Stdlib Require Import Floats Permutation Sorted DecimalString.
Import ListNotations.

Set Warnings "-inexact-float".

Local Open Scope string_scope.
Local Open Scope list_scope.

(** ** Strings *)

Module Str.

(** [c.lower()] on one ASCII character. *)
Definition lower_ascii (c : ascii) : ascii :=
  let n := nat_of_ascii c in
  if ((65 <=? n) && (n <=? 90))%nat then ascii_of_nat (n + 32) else c.

(** [s.lower()]. *)
Fixpoint lower (s : string) : string :=
  match s with
  | EmptyString => EmptyString
  | String c s' => String (lower_ascii c) (lower s')
  end.

(** [needle in hay] on strings: [needle] occurs as a contiguous run. *)
Fixpoint str_in (needle hay : string) : bool :=
  if String.prefix needle hay then true
  else match hay with
       | EmptyString => false
       | String _ hay' => str_in needle hay'
       end.

(** [x in l] on a list of strings. *)
Definition list_in (x : string) (l : list string) : bool :=
  existsb (String.eqb x) l.

(** [bool(s)] of a string. *)
Definition truthy (s : string) : bool :=
  match s with EmptyString => false | _ => true end.

(** Characters equal up to the case of a letter, and the scan for an
    occurrence up to case: the specification's "contains, case-insensitive". *)
Definition eqb_ci (a b : ascii) : bool :=
  Ascii.eqb (lower_ascii a) (lower_ascii b).

Fixpoint prefix_ci (p s : string) : bool :=
  match p, s with
  | EmptyString, _ => true
  | String a p', String b s' => eqb_ci a b && prefix_ci p' s'
  | String _ _, EmptyString => false
  end.

Fixpoint contains_ci (needle hay : string) : bool :=
  if prefix_ci needle hay then true
  else match hay with
       | EmptyString => false
       | String _ hay' => contains_ci needle hay'
       end.

End Str.

(** ** Exceptions and results *)

(** The two classes the handlers tell apart, each with its [str(e)]. *)
Inductive exn : Type :=
| RequestException (msg : string)
| OtherException (msg : string).

Definition str_exn (e : exn) : string :=
  match e with RequestException m => m | OtherException m => m end.

(** [str(KeyError(k))] is the key in single quotes. *)
Definition KeyError (k : string) : exn := OtherException ("'" ++ k ++ "'").

Inductive result (A : Type) : Type :=
| Ok (a : A)
| Raise (e : exn).
Arguments Ok {A} a.
Arguments Raise {A} e.

Definition bind {A B} (r : result A) (k : A -> result B) : result B :=
  match r with Ok a => k a | Raise e => Raise e end.

Notation "x <- r ;; k" := (bind r (fun x => k))
  (at level 61, r at next level, right associativity).

(** The value of a result, the exception forgotten. *)
Definition value_of {A} (r : result A) : option A :=
  match r with Ok a => Some a | Raise _ => None end.

(** [d[k]]: the value, or [KeyError]. *)
Definition subscript {A} (k : string) (field : option A) : result A :=
  match field with Some a => Ok a | None => Raise (KeyError k) end.

(** [d.get(k, default)]. *)
Definition get_default {A} (field : option A) (default : A) : A :=
  match field with Some a => a | None => default end.

(** ** The transport modes and their classification *)

Inductive app_type : Type := train_station | tube_station | tram_stop | bus_stop.

Definition app_type_eqb (a b : app_type) : bool :=
  match a, b with
  | train_station, train_station | tube_station, tube_station
  | tram_stop, tram_stop | bus_stop, bus_stop => true
  | _, _ => false
  end.

(** The [if]/[elif] chain of lines 151 to 163 on the lowered name and the
    provider types; [None] is [app_type = None]. *)
Definition classify (place_name_lower : string) (google_types : list string)
  : option app_type :=
  if Str.str_in "metrolink" place_name_lower then Some tram_stop
  else if Str.list_in "subway_station" google_types then Some tube_station
  else if Str.list_in "light_rail_station" google_types then Some tram_stop
  else if Str.str_in "tram" place_name_lower
          && negb (Str.list_in "train_station" google_types) then Some tram_stop
  else if Str.list_in "train_station" google_types then Some train_station
  else if Str.list_in "bus_station" google_types
          || Str.list_in "bus_stop" google_types then Some bus_stop
  else None.

(** The precedence list as the specification words it: an ordered list of
    rules, each a test on the name and the category tags with the mode it
    gives; the first rule whose test holds decides, and no rule means the
    candidate is discarded. *)
Module Spec.

Definition rule : Type := (string -> list string -> bool) * app_type.

Definition rules : list rule :=
  [ (fun name _ => Str.contains_ci "metrolink" name, tram_stop);
    (fun _ tags => Str.list_in "subway_station" tags, tube_station);
    (fun _ tags => Str.list_in "light_rail_station" tags, tram_stop);
    (fun name tags => Str.contains_ci "tram" name
                      && negb (Str.list_in "train_station" tags), tram_stop);
    (fun _ tags => Str.list_in "train_station" tags, train_station);
    (fun _ tags => Str.list_in "bus_station" tags
                   || Str.list_in "bus_stop" tags, bus_stop) ].

Fixpoint first_match (rs : list rule) (name : string) (tags : list string)
  : option app_type :=
  match rs with
  | [] => None
  | (test, mode) :: rs' =>
      if test name tags then Some mode else first_match rs' name tags
  end.

Definition mode_of (name : string) (tags : list string) : option app_type :=
  first_match rules name tags.

End Spec.

(** ** Floats and the [math] module *)

Module PyFloat.

Local Open Scope float_scope.

(** [bool(x)]: false exactly for the two zeros (a NaN is true). *)
Definition truthy (x : float) : bool := negb (x =? 0).

(** [math.pi] and [math.radians]: the product with pi / 180. *)
Definition pi : float := 3.141592653589793.
Definition degToRad : float := pi / 180.
Definition radians (x : float) : float := x * degToRad.

(** [math.sqrt]: the IEEE square root; a NaN out of a number is
    [ValueError]. *)
Definition math_sqrt (x : float) : result float :=
  let r := sqrt x in
  if is_nan r && negb (is_nan x)
  then Raise (OtherException "math domain error")
  else Ok r.

(** The integer nearest to [m * 2^e], a tie going to the even one. *)
Definition nearest_even (m : positive) (e : Z) : Z :=
  match e with
  | Zneg p =>
      let d := Z.pow 2 (Zpos p) in
      let q := Z.div (Zpos m) d in
      match Z.compare (2 * Z.modulo (Zpos m) d) d with
      | Lt => q
      | Gt => Z.succ q
      | Eq => if Z.even q then q else Z.succ q
      end
  | _ => Z.mul (Zpos m) (Z.pow 2 e)
  end.

(** [round(x)] with one argument: an [int], or an exception on NaN and on
    the infinities. *)
Definition round (x : float) : result Z :=
  match Prim2SF x with
  | S754_zero _ => Ok 0%Z
  | S754_nan => Raise (OtherException "cannot convert float NaN to integer")
  | S754_infinity _ =>
      Raise (OtherException "cannot convert float infinity to integer")
  | S754_finite s m e =>
      Ok (if s then Z.opp (nearest_even m e) else nearest_even m e)
  end.

(** [math.isfinite(x)]: neither a NaN nor an infinity. *)
Definition isfinite (x : float) : bool :=
  match Prim2SF x with
  | S754_zero _ | S754_finite _ _ _ => true
  | _ => false
  end.

(** [lo <= x <= hi]. *)
Definition between (lo x hi : float) : bool := (lo <=? x) && (x <=? hi).

End PyFloat.

(** The part of the [math] module and of float arithmetic that is not an IEEE
    operation: [math.sin], [math.cos], [math.atan2] and [x ** y]. *)
Record mathlib : Type := {
  math_sin : float -> result float;
  math_cos : float -> result float;
  math_atan2 : float -> float -> result float;
  float_pow : float -> float -> result float
}.

Section Haversine.

Variable M : mathlib.

Local Open Scope float_scope.

(** [haversine(lat1, lon1, lat2, lon2)], lines 77 to 89. *)
Definition haversine (lat1 lon1 lat2 lon2 : float) : result Z :=
  let R := 6371000 in
  let phi1 := PyFloat.radians lat1 in
  let phi2 := PyFloat.radians lat2 in
  let delta_phi := PyFloat.radians (lat2 - lat1) in
  let delta_lambda := PyFloat.radians (lon2 - lon1) in
  s1 <- math_sin M (delta_phi / 2) ;;
  p1 <- float_pow M s1 2 ;;
  c1 <- math_cos M phi1 ;;
  c2 <- math_cos M phi2 ;;
  s2 <- math_sin M (delta_lambda / 2) ;;
  p2 <- float_pow M s2 2 ;;
  let a := p1 + c1 * c2 * p2 in
  r1 <- PyFloat.math_sqrt a ;;
  r2 <- PyFloat.math_sqrt (1 - a) ;;
  t <- math_atan2 M r1 r2 ;;
  let c := 2 * t in
  let distance := R * c in
  PyFloat.round distance.

End Haversine.

(** ** The places service: requests, payloads and the aggregated result *)

(** One entry of [queries]: a provider type filter or a keyword filter. *)
Inductive query : Type :=
| QType (value : string)
| QKeyword (value : string).

Definition query_eqb (a b : query) : bool :=
  match a, b with
  | QType x, QType y => String.eqb x y
  | QKeyword x, QKeyword y => String.eqb x y
  | _, _ => false
  end.

(** The list [queries] of lines 97 to 105. *)
Definition queries : list query :=
  [ QType "train_station";
    QType "subway_station";
    QType "light_rail_station";
    QKeyword "Metrolink station";
    QKeyword "tram stop";
    QType "bus_station";
    QKeyword "bus stop" ].

(** The [params] of one nearby-search request; [rq_radius] is [int(radius)]. *)
Record params : Type := {
  rq_location : float * float;
  rq_radius : Z;
  rq_detail : query
}.

(** [place["geometry"]["location"]] with its two numbers. *)
Record latlng : Type := { ll_lat : option float; ll_lng : option float }.
Record geometry : Type := { gm_location : option latlng }.

(** One candidate of a payload's [results]. *)
Record place : Type := {
  p_place_id : option string;
  p_name : option string;
  p_types : option (list string);
  p_geometry : option geometry;
  p_vicinity : option string
}.

(** The JSON body of a nearby-search response. *)
Record places_payload : Type := {
  pp_status : option string;
  pp_results : option (list place);
  pp_error_message : option string
}.

(** The dictionary stored per place, lines 171 to 181. *)
Record transport_place : Type := {
  tp_name : option string;
  tp_latitude : float;
  tp_longitude : float;
  tp_type : app_type;
  tp_description : option string;
  tp_google_place_id : string;
  tp_distance : option Z;
  tp_google_types : list string;
  tp_debug_query_source : query
}.

(** The dictionary returned: ["member"], and ["error"] when a query failed. *)
Record aggregated : Type := {
  error : option string;
  member : list transport_place
}.

(** What the run does besides computing: the requests it sends and the
    messages it shows. *)
Inductive event : Type :=
| GeocodeGet (postcode : string)
| PlacesGet (rq : params)
| StWarning (msg : string)
| StError (msg : string).

Definition is_places_get (ev : event) : bool :=
  match ev with PlacesGet _ => true | _ => false end.

Definition request_of (ev : event) : option query :=
  match ev with PlacesGet rq => Some (rq_detail rq) | _ => None end.

(** The queries sent, in order, read off a log. *)
Fixpoint requests (log : list event) : list query :=
  match log with
  | [] => []
  | ev :: log' =>
      match request_of ev with
      | Some q => q :: requests log'
      | None => requests log'
      end
  end.

(** ** [all_places_dict] *)

Definition places_dict : Type := list (string * transport_place).

(** [k in d]. *)
Definition dict_mem (k : string) (d : places_dict) : bool :=
  existsb (fun kv => String.eqb k (fst kv)) d.

(** [d[k] = v]: the value of a present key is replaced where it stands, a new
    key goes last. *)
Fixpoint dict_set (d : places_dict) (k : string) (v : transport_place)
  : places_dict :=
  match d with
  | [] => [(k, v)]
  | (k', v') :: d' =>
      if String.eqb k k' then (k', v) :: d' else (k', v') :: dict_set d' k v
  end.

(** [d.get(k)]. *)
Fixpoint dict_get (d : places_dict) (k : string) : option transport_place :=
  match d with
  | [] => None
  | (k', v') :: d' => if String.eqb k k' then Some v' else dict_get d' k
  end.

(** [list(d.values())]. *)
Definition dict_values (d : places_dict) : list transport_place := map snd d.

Definition dict_keys (d : places_dict) : list string := map fst d.

(** ** The aggregator, lines 92 to 205 *)

Section Aggregator.

Variable M : mathlib.

(** The places service: the body of a response, or the exception that
    [requests.get], [raise_for_status] or [response.json] raises. *)
Variable fetch : params -> result places_payload.

Variables lat lon : float.
(** The radius, given as the integer that [int(radius)] makes of it. *)
Variable radius : Z.
Variables origin_lat origin_lon : option float.

(** [bool(x)] of an optional number, and [x or y]. *)
Definition truthy_opt (x : option float) : bool :=
  match x with Some v => PyFloat.truthy v | None => false end.

Definition or_else (x : option float) (y : float) : float :=
  match x with
  | Some v => if PyFloat.truthy v then v else y
  | None => y
  end.

(** The conditional expression of line 169. *)
Definition distance_val (place_lat place_lon : float) : result (option Z) :=
  if truthy_opt origin_lat && truthy_opt origin_lon
  then d <- haversine M (or_else origin_lat lat) (or_else origin_lon lon)
                        place_lat place_lon ;;
       Ok (Some d)
  else Ok None.

(** The body of the inner loop, lines 142 to 181, on one candidate: the
    dictionary after it, or the exception it raises (the dictionary is then
    as it was, nothing being stored before the last statement). *)
Definition process_place (query_detail : query) (all_places_dict : places_dict)
    (pl : place) : result places_dict :=
  match p_place_id pl with
  | None => Ok all_places_dict
  | Some place_id =>
      if negb (Str.truthy place_id) then Ok all_places_dict
      else
        let google_types := get_default (p_types pl) [] in
        let place_name_lower := Str.lower (get_default (p_name pl) "") in
        match classify place_name_lower google_types with
        | None => Ok all_places_dict
        | Some app_type =>
            if negb (dict_mem place_id all_places_dict) then
              g <- subscript "geometry" (p_geometry pl) ;;
              l <- subscript "location" (gm_location g) ;;
              place_lat <- subscript "lat" (ll_lat l) ;;
              place_lon <- subscript "lng" (ll_lng l) ;;
              dist <- distance_val place_lat place_lon ;;
              Ok (dict_set all_places_dict place_id
                    {| tp_name := p_name pl;
                       tp_latitude := place_lat;
                       tp_longitude := place_lon;
                       tp_type := app_type;
                       tp_description := p_vicinity pl;
                       tp_google_place_id := place_id;
                       tp_distance := dist;
                       tp_google_types := google_types;
                       tp_debug_query_source := query_detail |})
            else Ok all_places_dict
        end
  end.

(** The inner loop over [data.get("results", [])]: the dictionary when the
    loop ends or is left by an exception, and that exception. *)
Fixpoint process_results (query_detail : query) (all_places_dict : places_dict)
    (results : list place) : places_dict * option exn :=
  match results with
  | [] => (all_places_dict, None)
  | pl :: rest =>
      match process_place query_detail all_places_dict pl with
      | Ok d' => process_results query_detail d' rest
      | Raise e => (all_places_dict, Some e)
      end
  end.

Definition params_of (query_detail : query) : params :=
  {| rq_location := (lat, lon); rq_radius := radius; rq_detail := query_detail |}.

(** [f"{query_detail}"]: the [repr] of the dictionary of one entry. *)
Definition repr_query (q : query) : string :=
  match q with
  | QType v => "{'type': '" ++ v ++ "'}"
  | QKeyword v => "{'keyword': '" ++ v ++ "'}"
  end.

(** The text of the warning of line 183. *)
Definition warning_text (q : query) (status : string) (data : places_payload)
  : string :=
  "Google Places API query (" ++ repr_query q ++ ") returned status: "
  ++ status ++ " - " ++ get_default (pp_error_message data) "".

(** The text each of the two handlers shows, lines 190 and 195. *)
Definition error_text (q : query) (e : exn) : string :=
  match e with
  | RequestException m =>
      "Request failed for places query " ++ repr_query q ++ ": " ++ m
  | OtherException m =>
      "An unexpected error occurred during places fetch for "
      ++ repr_query q ++ ": " ++ m
  end.

(** The [try] block of one iteration of the outer loop, lines 126 to 184:
    the dictionary after it, what it sent and showed, and the exception that
    left it, if any. *)
Definition try_query (query_detail : query) (all_places_dict : places_dict)
  : places_dict * list event * option exn :=
  let rq := params_of query_detail in
  match fetch rq with
  | Raise e => (all_places_dict, [PlacesGet rq], Some e)
  | Ok data =>
      match subscript "status" (pp_status data) with
      | Raise e => (all_places_dict, [PlacesGet rq], Some e)
      | Ok status =>
          if String.eqb status "OK" then
            let '(d', err) :=
              process_results query_detail all_places_dict
                (get_default (pp_results data) []) in
            (d', [PlacesGet rq], err)
          else if negb (Str.list_in status ["ZERO_RESULTS"; "OK"]) then
            (all_places_dict,
             [PlacesGet rq; StWarning (warning_text query_detail status data)],
             None)
          else (all_places_dict, [PlacesGet rq], None)
      end
  end.

(** The outer loop with its two handlers and the final [return]. *)
Fixpoint run_queries (qs : list query) (all_places_dict : places_dict)
    (log : list event) : aggregated * list event :=
  match qs with
  | [] => ({| error := None; member := dict_values all_places_dict |}, log)
  | query_detail :: rest =>
      match try_query query_detail all_places_dict with
      | (d', evs, Some e) =>
          ({| error := Some (str_exn e); member := dict_values d' |},
           log ++ evs ++ [StError (error_text query_detail e)])
      | (d', evs, None) => run_queries rest d' (log ++ evs)
      end
  end.

Definition get_google_places_data : aggregated * list event :=
  run_queries queries [] [].

End Aggregator.

(** ** The geocode resolver, lines 37 to 75 *)

Record address_component : Type := {
  ac_long_name : option string;
  ac_types : option (list string)
}.

Record geocode_result : Type := {
  gr_geometry : option geometry;
  gr_address_components : option (list address_component);
  gr_formatted_address : option string
}.

Record geocode_payload : Type := {
  gp_status : option string;
  gp_results : option (list geocode_result);
  gp_error_message : option string
}.

(** The dictionary of a resolved postcode, lines 57 to 64. *)
Record location_data : Type := {
  latitude : float;
  longitude : float;
  postcode : string;
  formatted_address : string;
  admin_district : option string;
  region : option string
}.

(** What the resolver returns: the location, or [{"error": msg}]. *)
Inductive geocoded : Type :=
| Location (l : location_data)
| GeoError (msg : string).

(** [next((comp["long_name"] for comp in comps if level in comp["types"]),
    None)]. *)
Fixpoint first_long_name (level : string) (comps : list address_component)
  : result (option string) :=
  match comps with
  | [] => Ok None
  | comp :: rest =>
      tys <- subscript "types" (ac_types comp) ;;
      if Str.list_in level tys
      then n <- subscript "long_name" (ac_long_name comp) ;; Ok (Some n)
      else first_long_name level rest
  end.

Section Geocoder.

(** The geocoding service: the body of the response, or the exception of
    the request. *)
Variable geocode_fetch : string -> result geocode_payload.

(** The branch of a match, lines 50 to 64. *)
Definition location_of (pc : string) (first : geocode_result)
  : result location_data :=
  g <- subscript "geometry" (gr_geometry first) ;;
  location <- subscript "location" (gm_location g) ;;
  address_components <-
    subscript "address_components" (gr_address_components first) ;;
  district <- first_long_name "administrative_area_level_2" address_components ;;
  reg <- first_long_name "administrative_area_level_1" address_components ;;
  let fa := get_default (gr_formatted_address first) pc in
  la <- subscript "lat" (ll_lat location) ;;
  lo <- subscript "lng" (ll_lng location) ;;
  Ok {| latitude := la; longitude := lo; postcode := pc;
        formatted_address := fa; admin_district := district; region := reg |}.

(** The [elif] and the [else] of lines 65 to 69. *)
Definition no_location (pc status : string) (data : geocode_payload)
  : geocoded * list event :=
  if String.eqb status "ZERO_RESULTS"
  then (GeoError ("Postcode not found by Google: " ++ pc), [])
  else (GeoError ("Geocoding API returned status: " ++ status),
        [StError ("Google Geocoding API Error: " ++ status ++ " - "
                  ++ get_default (gp_error_message data) "")]).

(** The body of the [try], lines 49 to 69, once the response is in:
    [data["status"] == "OK" and data["results"]] reads ["results"] only
    under the status OK and holds when the list is not empty. *)
Definition geocode_body (pc : string) (data : geocode_payload)
  : result (geocoded * list event) :=
  status <- subscript "status" (gp_status data) ;;
  if String.eqb status "OK" then
    rs <- subscript "results" (gp_results data) ;;
    match rs with
    | first :: _ => l <- location_of pc first ;; Ok (Location l, [])
    | [] => Ok (no_location pc status data)
    end
  else Ok (no_location pc status data).

(** [get_google_geocode_data(postcode)]: both handlers turn the exception
    into an error result. *)
Definition get_google_geocode_data (pc : string) : geocoded * list event :=
  match (data <- geocode_fetch pc ;; geocode_body pc data) with
  | Ok (r, evs) => (r, GeocodeGet pc :: evs)
  | Raise (RequestException m) =>
      (GeoError m, [GeocodeGet pc; StError ("Request failed for geocoding: " ++ m)])
  | Raise (OtherException m) =>
      (GeoError m,
       [GeocodeGet pc;
        StError ("An unexpected error occurred during geocoding: " ++ m)])
  end.

End Geocoder.

(** ** The lookup flow, lines 361 to 377 *)

Section Flow.

Variable M : mathlib.
Variable geocode_fetch : string -> result geocode_payload.
Variable places_fetch : params -> result places_payload.

(** What a lookup ends with: no location, or the location and the
    transport data fetched for it. *)
Inductive looked_up : Type :=
| NoLocation (msg : string)
| Found (l : location_data) (transport_data : aggregated).

(** The [else] branch of a valid postcode: the resolver first, and the
    aggregator only under ["error" not in location_data]. *)
Definition lookup (formatted_postcode : string) (radius_m : Z)
  : looked_up * list event :=
  let '(loc, evs) := get_google_geocode_data geocode_fetch formatted_postcode in
  match loc with
  | GeoError msg =>
      (NoLocation msg, evs ++ [StError ("Error fetching location data: " ++ msg)])
  | Location l =>
      let '(transport_data, evs') :=
        get_google_places_data M places_fetch (latitude l) (longitude l)
          radius_m (Some (latitude l)) (Some (longitude l)) in
      (Found l transport_data, evs ++ evs')
  end.

End Flow.

(** ** The station details: grouping and sorting, lines 407 to 414 *)

(** The sort key of line 414: the distance, or [float('inf')]. *)
Inductive sort_key : Type :=
| Finite (d : Z)
| Infinity.

(** [a < b] on keys: an [int] is below the infinity, whatever its value. *)
Definition key_ltb (a b : sort_key) : bool :=
  match a, b with
  | Finite x, Finite y => Z.ltb x y
  | Finite _, Infinity => true
  | Infinity, _ => false
  end.

Definition distance_key (x : transport_place) : sort_key :=
  match tp_distance x with
  | Some d => Finite d
  | None => Infinity
  end.

(** [list.sort(key=...)]: ascending and stable.  An element goes in front of
    the first one of the sorted rest whose key is not below its own, which is
    the one order a stable sort can give. *)
Section Sort.

Context {A : Type}.
Variable key : A -> sort_key.

Fixpoint insert_sorted (x : A) (l : list A) : list A :=
  match l with
  | [] => [x]
  | y :: l' =>
      if key_ltb (key y) (key x) then y :: insert_sorted x l' else x :: y :: l'
  end.

Fixpoint list_sort (l : list A) : list A :=
  match l with
  | [] => []
  | x :: l' => insert_sorted x (list_sort l')
  end.

End Sort.

(** The list shown under one mode: the members of that type, in the order of
    ["member"], then sorted. *)
Definition stations_by_type (members : list transport_place) (pt_key : app_type)
  : list transport_place :=
  list_sort distance_key
    (filter (fun pl => app_type_eqb (tp_type pl) pt_key) members).

(** ** Text: [str], [repr] and the string methods of the pages *)

Module PyText.

(** [str(n)] of an [int]. *)
Definition str_int (n : Z) : string := NilZero.string_of_int (Z.to_int n).

(** A value that is a [str] or [None], inside an f-string. *)
Definition str_opt (o : option string) : string :=
  match o with Some s => s | None => "None" end.

(** [repr(s)] of a string without quote, backslash or control character,
    and [repr(l)] of a list of such strings. *)
Definition repr_str (s : string) : string := "'" ++ s ++ "'".

Definition repr_list (l : list string) : string :=
  "[" ++ String.concat ", " (map repr_str l) ++ "]".

(** [s.replace(a, b)] for two strings of one character. *)
Fixpoint replace (a b : ascii) (s : string) : string :=
  match s with
  | EmptyString => EmptyString
  | String c s' =>
      String (if Ascii.eqb c a then b else c) (replace a b s')
  end.

Definition is_alpha (c : ascii) : bool :=
  let n := nat_of_ascii c in
  (((65 <=? n) && (n <=? 90)) || ((97 <=? n) && (n <=? 122)))%nat.

Definition upper_ascii (c : ascii) : ascii :=
  let n := nat_of_ascii c in
  if ((97 <=? n) && (n <=? 122))%nat then ascii_of_nat (n - 32) else c.

(** [s.title()] on ASCII: a letter is uppercased after a character that is
    no letter and lowercased after a letter. *)
Fixpoint title_from (previous_is_cased : bool) (s : string) : string :=
  match s with
  | EmptyString => EmptyString
  | String c s' =>
      if is_alpha c
      then String (if previous_is_cased then Str.lower_ascii c
                   else upper_ascii c)
                  (title_from true s')
      else String c (title_from false s')
  end.

Definition title (s : string) : string := title_from false s.

End PyText.

(** The value of ["type"] in a stored place. *)
Definition type_str (t : app_type) : string :=
  match t with
  | train_station => "train_station"
  | tube_station => "tube_station"
  | tram_stop => "tram_stop"
  | bus_stop => "bus_stop"
  end.

(** [f"{place.get('distance')}m" if place.get('distance') is not None
    else "N/A"], lines 234 and 425. *)
Definition distance_str (distance : option Z) : string :=
  match distance with
  | Some d => PyText.str_int d ++ "m"
  | None => "N/A"
  end.

(** ** The transport map, lines 208 to 302 *)

(** What the page builds of the map library: icons, markers with their
    popup, named groups of markers, and the map with its children in the
    order they were added. *)
Record folium_icon : Type := {
  icon_color : string;
  icon_icon : string;
  icon_prefix : string
}.

Record folium_marker : Type := {
  mk_location : float * float;
  mk_popup : string;
  mk_popup_max_width : option Z;
  mk_icon : folium_icon;
  mk_tooltip : option string
}.

Record feature_group : Type := {
  fg_name : string;
  fg_markers : list folium_marker
}.

Inductive map_child : Type :=
| MarkerChild (mk : folium_marker)
| GroupChild (g : feature_group)
| LayerControl.

Record folium_map : Type := {
  map_location : float * float;
  map_zoom_start : Z;
  map_tiles : string;
  map_children : list map_child;
  map_html : list string
}.

(** One entry of [marker_config], lines 246 to 251. *)
Record marker_style : Type := {
  ms_color : string;
  ms_icon : string;
  ms_tooltip : string
}.

Definition marker_config : list (string * marker_style) :=
  [ ("train_station",
     {| ms_color := "green"; ms_icon := "train";
        ms_tooltip := "Train Station" |});
    ("bus_stop",
     {| ms_color := "orange"; ms_icon := "bus"; ms_tooltip := "Bus Stop" |});
    ("tube_station",
     {| ms_color := "purple"; ms_icon := "subway";
        ms_tooltip := "Underground Station" |});
    ("tram_stop",
     {| ms_color := "darkred"; ms_icon := "train";
        ms_tooltip := "Tram Stop" |}) ].

(** [transport_groups], lines 216 to 221, before the loop. *)
Definition transport_groups : list (string * feature_group) :=
  [ ("train_station", {| fg_name := "Train Stations"; fg_markers := [] |});
    ("bus_stop", {| fg_name := "Bus Stops"; fg_markers := [] |});
    ("tube_station",
     {| fg_name := "Underground Stations"; fg_markers := [] |});
    ("tram_stop", {| fg_name := "Tram Stops"; fg_markers := [] |}) ].

(** [d.get(k)] on a dictionary with string keys. *)
Fixpoint config_get {A : Type} (d : list (string * A)) (k : string)
  : option A :=
  match d with
  | [] => None
  | (k', v) :: d' => if String.eqb k k' then Some v else config_get d' k
  end.

(** [marker.add_to(groups[k])]: the marker goes last in the group. *)
Fixpoint add_to (groups : list (string * feature_group)) (k : string)
    (mk : folium_marker) : list (string * feature_group) :=
  match groups with
  | [] => []
  | (k', g) :: groups' =>
      if String.eqb k k'
      then (k', {| fg_name := fg_name g;
                   fg_markers := fg_markers g ++ [mk] |}) :: groups'
      else (k', g) :: add_to groups' k mk
  end.

(** The marker of the postcode, lines 223 to 227. *)
Definition home_marker (location_data : location_data) : folium_marker :=
  {| mk_location := (latitude location_data, longitude location_data);
     mk_popup := "<b>Postcode:</b> " ++ postcode location_data ++ "<br>"
                 ++ formatted_address location_data;
     mk_popup_max_width := None;
     mk_icon := {| icon_color := "red"; icon_icon := "home";
                   icon_prefix := "fa" |};
     mk_tooltip := None |}.

(** The popup of a place, lines 235 to 244. *)
Definition popup_content (place : transport_place) : string :=
  "
                <div style='min-width: 200px'>
                    <b>" ++ PyText.str_opt (tp_name place) ++ "</b><br>
                    <i>" ++ PyText.str_opt (tp_description place) ++ "</i><br>
                    <b>Type:</b> "
  ++ PyText.title (PyText.replace "_" " " (type_str (tp_type place)))
  ++ "<br>
                    <b>Distance:</b> " ++ distance_str (tp_distance place)
  ++ "<br>
                    <small><i>Found by: "
  ++ repr_query (tp_debug_query_source place) ++ "</i></small><br>
                    <small><i>Google Types: "
  ++ PyText.repr_list (tp_google_types place) ++ "</i></small>
                </div>
            ".

(** The marker of a place, lines 261 to 265. *)
Definition place_marker (config : marker_style) (icon_to_use : string)
    (place : transport_place) : folium_marker :=
  {| mk_location := (tp_latitude place, tp_longitude place);
     mk_popup := popup_content place;
     mk_popup_max_width := Some 350%Z;
     mk_icon := {| icon_color := ms_color config; icon_icon := icon_to_use;
                   icon_prefix := "fa" |};
     mk_tooltip := Some (ms_tooltip config) |}.

(** One turn of the loop of line 230.  A stored place has the four keys of
    line 231, so the [continue] of line 232 is not taken. *)
Definition add_place (groups : list (string * feature_group))
    (place : transport_place) : list (string * feature_group) :=
  let place_type_lower := Str.lower (type_str (tp_type place)) in
  match config_get marker_config place_type_lower,
        config_get groups place_type_lower with
  | Some config, Some _ =>
      let icon_to_use :=
        if String.eqb place_type_lower "tram_stop" then "tram"
        else ms_icon config in
      add_to groups place_type_lower (place_marker config icon_to_use place)
  | _, _ => groups
  end.

Section TransportMap.

(** The text of the legend, the literal of lines 273 to 299. *)
Variable legend_html : string.

(** [create_transport_map(location_data, transport_data)]. *)
Definition create_transport_map (location_data : location_data)
    (transport_data : aggregated) : folium_map :=
  let groups := fold_left add_place (member transport_data) transport_groups in
  {| map_location := (latitude location_data, longitude location_data);
     map_zoom_start := 15;
     map_tiles := "CartoDB positron";
     map_children :=
       MarkerChild (home_marker location_data)
       :: map (fun kv => GroupChild (snd kv)) groups ++ [LayerControl];
     map_html := [legend_html] |}.

End TransportMap.

(** ** The results of a lookup on the page, lines 379 to 437 *)

(** What the page shows: messages, texts, an expander with what it holds,
    the tabs with what each holds, and a map. *)
#[warnings="-register-all"]
Inductive element : Type :=
| st_error (msg : string)
| st_info (msg : string)
| st_warning (msg : string)
| st_subheader (body : string)
| st_write (body : string)
| st_caption (body : string)
| st_markdown (body : string)
| st_expander (label : string) (inside : list element)
| st_tabs (tabs : list (string * list element))
| folium_static (m : folium_map) (height : Z).

Section Display.

(** [str(x)] and [format(x, ".5f")] of a float. *)
Variable str_float : float -> string.
Variable format_5f : float -> string.

Variable legend_html : string.

(** [d.get('type') or d.get('keyword')] inside the f-string of line 429. *)
Definition found_by_query (q : query) : string :=
  match q with
  | QType v => if Str.truthy v then v else "None"
  | QKeyword v => v
  end.

(** The expander of one station, lines 423 to 433.  A stored place has
    every key read here, so no default of a [get] is shown and the test of
    line 427 holds. *)
Definition station_expander (station : transport_place) : element :=
  st_expander (PyText.str_opt (tp_name station))
    ([ st_write ("**Address/Vicinity:** "
                 ++ PyText.str_opt (tp_description station));
       st_write ("**Distance:** " ++ distance_str (tp_distance station));
       st_write ("**Location:** " ++ format_5f (tp_latitude station) ++ ", "
                 ++ format_5f (tp_longitude station));
       st_caption ("Found by query: "
                   ++ found_by_query (tp_debug_query_source station));
       st_caption ("Google Types: "
                   ++ PyText.repr_list (tp_google_types station)) ]
     ++ if Str.truthy (tp_google_place_id station)
        then [ st_markdown
                 ("[View on Google Maps]("
                  ++ "https://www.google.com/maps/search/?api=1&query=Google&query_place_id="
                  ++ tp_google_place_id station ++ ")") ]
        else []).

(** [transport_types_display], lines 400 to 405. *)
Definition transport_types_display : list (app_type * string) :=
  [ (train_station, "Train Stations");
    (tube_station, "Underground Stations");
    (bus_stop, "Bus Stops");
    (tram_stop, "Tram Stops") ].

(** One turn of the loop of line 417: what is shown, and whether
    [found_any_stations] is set. *)
Definition type_section (members : list transport_place)
    (entry : app_type * string) : list element * bool :=
  match stations_by_type members (fst entry) with
  | [] => ([], false)
  | stations =>
      (st_subheader (snd entry) :: map station_expander stations, true)
  end.

(** The tab of the details, lines 399 to 437. *)
Definition details_tab (radius_km : float) (transport_data : aggregated)
  : list element :=
  match member transport_data with
  | [] =>
      [ st_info ("No transport locations found within "
                 ++ str_float radius_km ++ " km.") ]
  | members =>
      let turns := map (type_section members) transport_types_display in
      let found_any_stations := existsb snd turns in
      flat_map fst turns
      ++ if found_any_stations then []
         else [ st_info ("No transport locations of the configured types found within "
                         ++ str_float radius_km ++ " km.") ]
  end.

(** Lines 379 to 437: what the page shows of the transport data. *)
Definition show_transport_data (radius_km : float)
    (formatted_postcode : string) (location_data : location_data)
    (transport_data : aggregated) : list element :=
  match member transport_data with
  | [] =>
      match error transport_data with
      | Some e => [ st_error ("Error fetching transport data: " ++ e) ]
      | None =>
          [ st_info ("No relevant transport locations found by Google Places API within "
                     ++ str_float radius_km ++ " km for " ++ formatted_postcode
                     ++ ".") ]
      end
  | _ :: _ =>
      match error transport_data with
      | Some e =>
          [ st_warning
              ("Partial data shown due to an error during transport data fetch: "
               ++ e) ]
      | None => []
      end
      ++ [ st_tabs
             [ ("Transport Map",
                [ folium_static
                    (create_transport_map legend_html location_data
                       transport_data) 600 ]);
               ("Station Details", details_tab radius_km transport_data) ] ]
  end.

End Display.

(** * The vocabulary of the properties *)

(** ** Candidates, entries and the state of the loops *)

(** The mode the code gives a candidate: the chain on its lowered name and
    its types. *)
Definition place_mode (pl : place) : option app_type :=
  classify (Str.lower (get_default (p_name pl) "")) (get_default (p_types pl) []).

Section Runs.

Variable M : mathlib.
Variable fetch : params -> result places_payload.
Variables lat lon : float.
Variable radius : Z.
Variables origin_lat origin_lon : option float.

(** The entry [e] is the dictionary lines 171 to 181 build for the candidate
    [pl] found by the query [q]. *)
Definition built_from (q : query) (pl : place) (e : transport_place) : Prop :=
  p_place_id pl = Some (tp_google_place_id e)
  /\ Str.truthy (tp_google_place_id e) = true
  /\ place_mode pl = Some (tp_type e)
  /\ tp_name e = p_name pl
  /\ tp_google_types e = get_default (p_types pl) []
  /\ tp_description e = p_vicinity pl
  /\ tp_debug_query_source e = q
  /\ (exists g l, p_geometry pl = Some g /\ gm_location g = Some l
                  /\ ll_lat l = Some (tp_latitude e)
                  /\ ll_lng l = Some (tp_longitude e))
  /\ distance_val M lat lon origin_lat origin_lon (tp_latitude e) (tp_longitude e)
     = Ok (tp_distance e).

(** The candidates a query is answered with: the results of a payload whose
    status is OK, nothing otherwise. *)
Definition offered (q : query) : list place :=
  match fetch (params_of lat lon radius q) with
  | Ok data =>
      match pp_status data with
      | Some status =>
          if String.eqb status "OK" then get_default (pp_results data) [] else []
      | None => []
      end
  | Raise _ => []
  end.

(** The candidates of the queries [qs], each with its query, in the order
    the loops meet them. *)
Definition candidates (qs : list query) : list (query * place) :=
  flat_map (fun q => map (pair q) (offered q)) qs.

(** [e] was built from the occurrence [(q, pl)] of the stream [cs], and no
    occurrence of its identifier before that one was given a mode. *)
Definition first_classified (cs : list (query * place)) (q : query)
    (pl : place) (e : transport_place) : Prop :=
  exists l1 l2,
    cs = l1 ++ (q, pl) :: l2
    /\ built_from q pl e
    /\ forall q' pl', In (q', pl') l1 ->
          p_place_id pl' = Some (tp_google_place_id e) -> place_mode pl' = None.

(** The invariant of the two loops, after the candidates [cs]: keys are
    distinct, every entry sits under its own identifier and comes from the
    first occurrence that was given a mode, and every occurrence that was
    given a mode has its identifier in the dictionary. *)
Record Inv (cs : list (query * place)) (d : places_dict) : Prop := {
  inv_nodup : NoDup (dict_keys d);
  inv_entry : forall k e, In (k, e) d ->
      k = tp_google_place_id e /\ exists q pl, first_classified cs q pl e;
  inv_complete : forall q pl id, In (q, pl) cs ->
      p_place_id pl = Some id -> Str.truthy id = true ->
      place_mode pl <> None -> dict_mem id d = true
}.

(** The dictionary after the loop body ran on each candidate of [cs] in turn,
    none of them raising. *)
Fixpoint steps (cs : list (query * place)) (d : places_dict)
  : option places_dict :=
  match cs with
  | [] => Some d
  | (q, pl) :: cs' =>
      match process_place M lat lon origin_lat origin_lon q d pl with
      | Ok d' => steps cs' d'
      | Raise _ => None
      end
  end.

(** The outer loop with the dictionary kept in view: the dictionary and the
    log when the loop ends or a handler returns, and the exception caught. *)
Fixpoint loop_state (qs : list query) (d : places_dict) (log : list event)
  : places_dict * list event * option exn :=
  match qs with
  | [] => (d, log, None)
  | q :: rest =>
      match try_query M fetch lat lon radius origin_lat origin_lon q d with
      | (d', evs, Some e) =>
          (d', log ++ evs ++ [StError (error_text q e)], Some e)
      | (d', evs, None) => loop_state rest d' (log ++ evs)
      end
  end.

(** What [run_queries] returns, read off the state of the loop. *)
Definition returned (st : places_dict * list event * option exn)
  : aggregated * list event :=
  match st with
  | (d, log, Some e) =>
      ({| error := Some (str_exn e); member := dict_values d |}, log)
  | (d, log, None) => ({| error := None; member := dict_values d |}, log)
  end.

End Runs.

(** The member [e] comes from the earliest candidate that was given a mode:
    it was built from a candidate [pl] of the query [q], the [i]-th of the
    fixed order; no candidate with its identifier standing before [pl] in the
    same response was given a mode, and none returned by an earlier query
    was. *)
Definition earliest_classified (M : mathlib)
    (fetch : params -> result places_payload) (lat lon : float) (radius : Z)
    (origin_lat origin_lon : option float) (e : transport_place) : Prop :=
  exists i q pl before after,
    nth_error queries i = Some q
    /\ offered fetch lat lon radius q = before ++ pl :: after
    /\ built_from M lat lon origin_lat origin_lon q pl e
    /\ (forall pl', In pl' before ->
          p_place_id pl' = Some (tp_google_place_id e) ->
          place_mode pl' = None)
    /\ (forall j q' pl', j < i -> nth_error queries j = Some q' ->
          In pl' (offered fetch lat lon radius q') ->
          p_place_id pl' = Some (tp_google_place_id e) ->
          place_mode pl' = None).

(** A failure at the transport level: the request raises, or the body that
    came back has no status to read. *)
Definition transport_failure (response : result places_payload) (e : exn)
  : Prop :=
  response = Raise e
  \/ exists data,
       response = Ok data /\ pp_status data = None /\ e = KeyError "status".

(** The identifiers of a dictionary, each with the mode stored under it. *)
Definition modes (d : places_dict) : list (string * app_type) :=
  map (fun kv => (fst kv, tp_type (snd kv))) d.

(** What the loop body did, as far as modes go: the modes of the dictionary
    it leaves, or its exception. *)
Definition mode_outcome (r : result places_dict)
  : result (list (string * app_type)) :=
  match r with
  | Ok d => Ok (modes d)
  | Raise e => Raise e
  end.

(** The keyword query for bus stops, the last of the seven. *)
Definition bus_stop_query : query := QKeyword "bus stop".

(** ** The order of the sort keys *)

(** [a <= b] on keys: not [b < a]. *)
Definition key_le (a b : sort_key) : Prop := key_ltb b a = false.

(** ** Numbers and the laws of the [math] module *)

(** A specified float that is a number: a zero or a finite value. *)
Definition is_number (x : spec_float) : Prop :=
  match x with
  | S754_zero _ | S754_finite _ _ _ => True
  | _ => False
  end.

Section Distance.

Variable M : mathlib.

Local Open Scope float_scope.

(** What the two equalities of the distance need of the [math] module, each
    a fact of the C library and of CPython: the sine of zero is zero and the
    sine is odd; the cosine of a finite number is a number between -1 and 1;
    the angle of the point (1, 0) is zero; the square of zero is zero and the
    square is even. *)
Record math_laws : Prop := {
  sin_zero : math_sin M 0 = Ok 0;
  sin_odd : forall x,
    value_of (math_sin M (- x)) = option_map opp (value_of (math_sin M x));
  cos_range : forall x, PyFloat.isfinite x = true ->
    exists c, math_cos M x = Ok c /\ PyFloat.between (-1) c 1 = true;
  atan2_zero : math_atan2 M 0 1 = Ok 0;
  pow_zero : float_pow M 0 2 = Ok 0;
  pow_even : forall x,
    value_of (float_pow M (- x) 2) = value_of (float_pow M x 2)
}.

(** The first and the last term of [a]: the squared sine of half an angle
    given in degrees. *)
Definition squared_sine (u : float) : option float :=
  value_of (s <- math_sin M (PyFloat.radians u / 2) ;; float_pow M s 2).

(** What [haversine] does once [a] is known. *)
Definition from_a (a : float) : result Z :=
  r1 <- PyFloat.math_sqrt a ;;
  r2 <- PyFloat.math_sqrt (1 - a) ;;
  t <- math_atan2 M r1 r2 ;;
  PyFloat.round (6371000 * (2 * t)).

End Distance.

(** The requests to the places service, in order, read off a log. *)
Fixpoint places_requests (log : list event) : list params :=
  match log with
  | [] => []
  | PlacesGet rq :: log' => rq :: places_requests log'
  | _ :: log' => places_requests log'
  end.

(** A candidate the loop body can store: it has an identifier that is not
    empty and the chain gives it a mode. *)
Definition storable (pl : place) (id : string) : Prop :=
  p_place_id pl = Some id /\ Str.truthy id = true /\ place_mode pl <> None.

(** An answer that brings no candidate and raises nothing: a body whose
    status is not OK, or is OK with no list of results or an empty one. *)
Definition barren (response : result places_payload) : Prop :=
  exists data status,
    response = Ok data /\ pp_status data = Some status
    /\ (status <> "OK" \/ get_default (pp_results data) [] = []).

(** [a == b] on sort keys. *)
Definition key_eqb (a b : sort_key) : bool :=
  match a, b with
  | Finite x, Finite y => Z.eqb x y
  | Infinity, Infinity => true
  | _, _ => false
  end.

(** The address component [comp] is well formed and is not of the level
    looked for. *)
Definition other_level (level : string) (comp : address_component) : Prop :=
  exists tys, ac_types comp = Some tys /\ Str.list_in level tys = false.

(** ** The map and the details *)

(** The members of one mode, in the order of the members. *)
Definition of_type (t : app_type) (members : list transport_place)
  : list transport_place :=
  filter (fun pl => app_type_eqb (tp_type pl) t) members.

(** The marker of a place with a colour, an icon and a tooltip. *)
Definition pin (color icon tooltip : string) (place : transport_place)
  : folium_marker :=
  {| mk_location := (tp_latitude place, tp_longitude place);
     mk_popup := popup_content place;
     mk_popup_max_width := Some 350%Z;
     mk_icon := {| icon_color := color; icon_icon := icon;
                   icon_prefix := "fa" |};
     mk_tooltip := Some tooltip |}.

(** The groups of the map with these markers. *)
Definition groups_with (trains buses tubes trams : list folium_marker)
  : list (string * feature_group) :=
  [ ("train_station", {| fg_name := "Train Stations"; fg_markers := trains |});
    ("bus_stop", {| fg_name := "Bus Stops"; fg_markers := buses |});
    ("tube_station",
     {| fg_name := "Underground Stations"; fg_markers := tubes |});
    ("tram_stop", {| fg_name := "Tram Stops"; fg_markers := trams |}) ].

Definition is_expander (e : element) : bool :=
  match e with st_expander _ _ => true | _ => false end.

Definition is_info (e : element) : bool :=
  match e with st_info _ => true | _ => false end.

(** The headings among what is shown, in order. *)
Definition subheaders (shown : list element) : list string :=
  flat_map (fun e => match e with st_subheader s => [s] | _ => [] end) shown.

(** Some member is of the mode [t]. *)
Definition has_station (members : list transport_place) (t : app_type)
  : bool :=
  match stations_by_type members t with [] => false | _ :: _ => true end.

(** * Worked inputs *)

Module Fixture.

Local Open Scope float_scope.

(** A stand-in for the functions of [mathlib], good near zero: the sine of
    [x] is [x], the cosine is 1, the angle of [(x, y)] is [y / x], and the
    square is the product. *)
Definition small_angle : mathlib := {|
  math_sin := fun x => Ok x;
  math_cos := fun _ => Ok 1;
  math_atan2 := fun y x => Ok (y / x);
  float_pow := fun x y =>
    if y =? 2 then Ok (x * x)
    else Raise (OtherException "exponent not covered")
|}.

Definition at_ (la lo : float) : option geometry :=
  Some {| gm_location := Some {| ll_lat := Some la; ll_lng := Some lo |} |}.

(** The identifier X as the train_station query returns it. *)
Definition piccadilly_train : place := {|
  p_place_id := Some "X";
  p_name := Some "Manchester Piccadilly";
  p_types := Some ["train_station"; "transit_station"];
  p_geometry := at_ 53.4774 (-2.2309);
  p_vicinity := Some "London Road, Manchester"
|}.

(** The identifier X again, as the light_rail_station query returns it. *)
Definition piccadilly_tram : place := {|
  p_place_id := Some "X";
  p_name := Some "Manchester Piccadilly";
  p_types := Some ["light_rail_station"; "transit_station"];
  p_geometry := at_ 53.4774 (-2.2309);
  p_vicinity := Some "London Road, Manchester"
|}.

Definition metrolink_piccadilly : place := {|
  p_place_id := Some "M";
  p_name := Some "Manchester Metrolink - Piccadilly";
  p_types := Some ["light_rail_station"; "train_station"];
  p_geometry := at_ 53.4771 (-2.2301);
  p_vicinity := None
|}.

Definition no_identifier : place := {|
  p_place_id := None;
  p_name := Some "Tram stop without an identifier";
  p_types := Some ["light_rail_station"];
  p_geometry := at_ 53.48 (-2.24);
  p_vicinity := None
|}.

Definition corner_shop : place := {|
  p_place_id := Some "K";
  p_name := Some "Corner Shop";
  p_types := Some ["store"; "point_of_interest"];
  p_geometry := at_ 53.4801 (-2.2402);
  p_vicinity := None
|}.

Definition shudehill : place := {|
  p_place_id := Some "S";
  p_name := Some "Shudehill Interchange";
  p_types := Some ["bus_station"; "transit_station"];
  p_geometry := at_ 53.4853 (-2.2388);
  p_vicinity := Some "Shudehill, Manchester"
|}.

(** A train station whose entry has no coordinates. *)
Definition no_geometry : place := {|
  p_place_id := Some "N";
  p_name := Some "Deansgate";
  p_types := Some ["train_station"];
  p_geometry := None;
  p_vicinity := None
|}.

Definition ok (ps : list place) : result places_payload :=
  Ok {| pp_status := Some "OK"; pp_results := Some ps;
        pp_error_message := None |}.

Definition status_only (s : string) : result places_payload :=
  Ok {| pp_status := Some s; pp_results := None; pp_error_message := None |}.

Definition asks (rq : params) (q : query) : bool := query_eqb (rq_detail rq) q.

(** A places service: X under two queries, bus stations refused. *)
Definition manchester (rq : params) : result places_payload :=
  if asks rq (QType "train_station") then ok [piccadilly_train]
  else if asks rq (QType "light_rail_station")
    then ok [piccadilly_tram; metrolink_piccadilly; no_identifier]
  else if asks rq (QType "bus_station") then status_only "OVER_QUERY_LIMIT"
  else if asks rq (QKeyword "bus stop") then ok [corner_shop; shudehill]
  else status_only "ZERO_RESULTS".

(** A places service whose second answer never comes. *)
Definition timeout_on_second (rq : params) : result places_payload :=
  if asks rq (QType "train_station") then ok [piccadilly_train]
  else if asks rq (QType "subway_station")
    then Raise (RequestException "Read timed out.")
  else status_only "ZERO_RESULTS".

(** A places service whose first answer never comes. *)
Definition timeout_on_first (rq : params) : result places_payload :=
  Raise (RequestException "Read timed out.").

(** A places service whose first answer holds an entry without geometry
    after a good one. *)
Definition malformed_first (rq : params) : result places_payload :=
  if asks rq (QType "train_station") then ok [piccadilly_train; no_geometry]
  else status_only "ZERO_RESULTS".

Definition entry (pl : place) (id : string) (la lo : float) (t : app_type)
    (dist : option Z) (q : query) : transport_place := {|
  tp_name := p_name pl;
  tp_latitude := la;
  tp_longitude := lo;
  tp_type := t;
  tp_description := p_vicinity pl;
  tp_google_place_id := id;
  tp_distance := dist;
  tp_google_types := get_default (p_types pl) [];
  tp_debug_query_source := q
|}.

(** The centre of the searches. *)
Definition lat0 : float := 53.4794.
Definition lon0 : float := (-2.2453).

Definition run (fetch : params -> result places_payload)
    (origin_lat origin_lon : option float) : aggregated * list event :=
  get_google_places_data small_angle fetch lat0 lon0 1500
    origin_lat origin_lon.

(** The entry of X as the train_station query gives it. *)
Definition x_entry : transport_place :=
  entry piccadilly_train "X" 53.4774 (-2.2309) train_station None
    (QType "train_station").

(** The members for [manchester], the origin not given. *)
Definition manchester_members : list transport_place :=
  [ x_entry;
    entry metrolink_piccadilly "M" 53.4771 (-2.2301) tram_stop None
      (QType "light_rail_station");
    entry shudehill "S" 53.4853 (-2.2388) bus_stop None
      (QKeyword "bus stop") ].

End Fixture.

Module Greenwich.

Local Open Scope float_scope.

(** A station west of the meridian, and a places service that knows it. *)
Definition station : place := {|
  p_place_id := Some "G";
  p_name := Some "Greenwich";
  p_types := Some ["train_station"; "transit_station"];
  p_geometry := Fixture.at_ 51.4781 (-0.0149);
  p_vicinity := Some "Greenwich High Road, London"
|}.

Definition places (rq : params) : result places_payload :=
  if Fixture.asks rq (QType "train_station") then Fixture.ok [station]
  else Fixture.status_only "ZERO_RESULTS".

Definition found (dist : option Z) : transport_place :=
  Fixture.entry station "G" 51.4781 (-0.0149) train_station dist
    (QType "train_station").

End Greenwich.

Module GeoFixture.

Local Open Scope float_scope.

Definition postcode : string := "M1 1RG".

(** A geocoding service that knows no postcode. *)
Definition zero_results (pc : string) : result geocode_payload :=
  Ok {| gp_status := Some "ZERO_RESULTS"; gp_results := Some [];
        gp_error_message := None |}.

(** A geocoding service that says OK and sends no result. *)
Definition ok_but_empty (pc : string) : result geocode_payload :=
  Ok {| gp_status := Some "OK"; gp_results := Some [];
        gp_error_message := None |}.

(** A geocoding service that resolves every postcode to one place. *)
Definition resolves (pc : string) : result geocode_payload :=
  Ok {| gp_status := Some "OK";
        gp_results := Some
          [{| gr_geometry := Fixture.at_ 53.4794 (-2.2453);
              gr_address_components := Some
                [{| ac_long_name := Some "Greater Manchester";
                    ac_types := Some ["administrative_area_level_2";
                                      "political"] |};
                 {| ac_long_name := Some "England";
                    ac_types := Some ["administrative_area_level_1";
                                      "political"] |}];
              gr_formatted_address := Some "Manchester M1 1RG, UK" |}];
        gp_error_message := None |}.

End GeoFixture.

Module SortFixture.

Definition stop (id : string) (dist : option Z) : transport_place := {|
  tp_name := Some id;
  tp_latitude := 53.48;
  tp_longitude := (-2.24);
  tp_type := bus_stop;
  tp_description := None;
  tp_google_place_id := id;
  tp_distance := dist;
  tp_google_types := ["bus_station"];
  tp_debug_query_source := QType "bus_station"
|}.

Definition members : list transport_place :=
  [ stop "a" (Some 300%Z); stop "b" None; stop "c" (Some 120%Z);
    Greenwich.found (Some 5%Z); stop "d" None; stop "e" (Some 120%Z) ].

End SortFixture.

Module ComponentFixture.

Definition county : address_component :=
  {| ac_long_name := Some "Greater Manchester";
     ac_types := Some ["administrative_area_level_2"; "political"] |}.

Definition town : address_component :=
  {| ac_long_name := Some "Manchester";
     ac_types := Some ["postal_town"] |}.

(** A component with no list of types. *)
Definition broken : address_component :=
  {| ac_long_name := Some "M1"; ac_types := None |}.

End ComponentFixture.

Module PageFixture.

(** A formatter that shows no digit: the properties read no number. *)
Definition no_digits (x : float) : string := "#".

Definition here : location_data :=
  {| latitude := 53.4794%float; longitude := (-2.2453)%float;
     postcode := "M1 1RG"; formatted_address := "Manchester M1 1RG, UK";
     admin_district := Some "Greater Manchester"; region := Some "England" |}.

Definition data : aggregated :=
  {| error := Some "timed out"; member := SortFixture.members |}.

End PageFixture.

(** * Facts *)

(** ** Facts about strings *)

Module StrFacts.

Import Str.

Lemma prefix_lower (p s : string) :
  String.prefix (lower p) (lower s) = prefix_ci p s.
Proof.
  revert s; induction p as [|a p IH]; intros [|b s]; simpl; trivial.
  unfold eqb_ci.
  destruct (ascii_dec (lower_ascii a) (lower_ascii b)) as [E|E].
  - rewrite E, Ascii.eqb_refl. apply IH.
  - apply Ascii.eqb_neq in E. now rewrite E.
Qed.

(** The test of the code, on the lowered name, is the scan up to case. *)
Lemma str_in_lower (p s : string) :
  str_in (lower p) (lower s) = contains_ci p s.
Proof.
  induction s as [|b s IH]; cbn [lower str_in contains_ci];
    rewrite <- prefix_lower; cbn [lower]; [reflexivity | now rewrite IH].
Qed.

Lemma prefix_app (p s : string) : String.prefix p (p ++ s) = true.
Proof.
  induction p as [|a p IH]; simpl; [now destruct s |].
  destruct (ascii_dec a a); [assumption | congruence].
Qed.

Lemma str_in_prefix (p s : string) :
  String.prefix p s = true -> str_in p s = true.
Proof. intros H. destruct s; cbn [str_in]; now rewrite H. Qed.

Lemma str_in_app (p a b : string) : str_in p (a ++ p ++ b) = true.
Proof.
  induction a as [|c a IH].
  - change (str_in p (p ++ b) = true). apply str_in_prefix, prefix_app.
  - cbn [String.append str_in]. rewrite IH.
    now destruct (String.prefix p (String c (a ++ p ++ b))).
Qed.

Lemma lower_app (a b : string) :
  lower (a ++ b) = (lower a ++ lower b)%string.
Proof. induction a as [|c a IH]; simpl; [trivial | now rewrite IH]. Qed.

End StrFacts.

(** ** Facts about [all_places_dict] *)

Lemma dict_mem_In (k : string) (d : places_dict) :
  dict_mem k d = true <-> In k (dict_keys d).
Proof.
  unfold dict_mem, dict_keys. rewrite existsb_exists, in_map_iff. split.
  - intros [kv [Hin Heq]]. apply String.eqb_eq in Heq. now exists kv.
  - intros [kv [Heq Hin]]. exists kv. split; trivial.
    now apply String.eqb_eq.
Qed.

Lemma dict_mem_app (k : string) (d1 d2 : places_dict) :
  dict_mem k (d1 ++ d2) = dict_mem k d1 || dict_mem k d2.
Proof. apply existsb_app. Qed.

(** Storing under an absent key appends. *)
Lemma dict_set_absent (d : places_dict) (k : string) (v : transport_place) :
  dict_mem k d = false -> dict_set d k v = d ++ [(k, v)].
Proof.
  induction d as [|[k' v'] d IH]; simpl; trivial.
  destruct (String.eqb k k'); simpl; [discriminate |].
  intros H. now rewrite IH.
Qed.

(** ** The candidates of a run and what the loop body does with one *)

Section AggregatorFacts.

Variable M : mathlib.
Variable fetch : params -> result places_payload.
Variables lat lon : float.
Variable radius : Z.
Variables origin_lat origin_lon : option float.

Local Abbreviation built_from := (built_from M lat lon origin_lat origin_lon).
Local Abbreviation offered := (offered fetch lat lon radius).
Local Abbreviation candidates := (candidates fetch lat lon radius).
Local Abbreviation first_classified :=
  (first_classified M lat lon origin_lat origin_lon).
Local Abbreviation Inv := (Inv M lat lon origin_lat origin_lon).
Local Abbreviation steps := (steps M lat lon origin_lat origin_lon).

Local Abbreviation body := (process_place M lat lon origin_lat origin_lon).

(** A candidate either leaves the dictionary as it is, or is stored last
    under its own identifier, which was absent. *)
Lemma process_place_ok (q : query) (d d' : places_dict) (pl : place) :
  body q d pl = Ok d' ->
  (d' = d
   /\ forall id, p_place_id pl = Some id -> Str.truthy id = true ->
                 place_mode pl <> None -> dict_mem id d = true)
  \/ (exists e, built_from q pl e
                /\ dict_mem (tp_google_place_id e) d = false
                /\ d' = d ++ [(tp_google_place_id e, e)]).
Proof.
  unfold body, process_place. fold (place_mode pl).
  destruct (p_place_id pl) as [id|] eqn:Hid.
  2:{ intros [= <-]. left. split; trivial. discriminate. }
  destruct (Str.truthy id) eqn:Htr; simpl.
  2:{ intros [= <-]. left. split; trivial. intros id' [= <-]. congruence. }
  destruct (place_mode pl) as [t|] eqn:Hmode.
  2:{ intros [= <-]. left. split; trivial. congruence. }
  destruct (dict_mem id d) eqn:Hmem; simpl.
  { intros [= <-]. left. split; trivial. now intros id' [= <-]. }
  destruct (p_geometry pl) as [g|] eqn:Hg; simpl; [|discriminate].
  destruct (gm_location g) as [l|] eqn:Hl; simpl; [|discriminate].
  destruct (ll_lat l) as [la|] eqn:Hla; simpl; [|discriminate].
  destruct (ll_lng l) as [lo|] eqn:Hlo; simpl; [|discriminate].
  destruct (distance_val M lat lon origin_lat origin_lon la lo) as [dv|]
    eqn:Hdv; simpl; [|discriminate].
  intros [= <-]. right. eexists. split; [|split].
  3:{ simpl. now apply dict_set_absent. }
  2:{ exact Hmem. }
  unfold built_from; simpl. repeat split; trivial.
  now exists g, l.
Qed.

(** A candidate the chain leaves without a mode never changes the
    dictionary. *)
Lemma process_place_unclassified (q : query) (d : places_dict) (pl : place) :
  place_mode pl = None -> body q d pl = Ok d.
Proof.
  intros H. unfold body, process_place. fold (place_mode pl). rewrite H.
  destruct (p_place_id pl) as [id|]; trivial.
  now destruct (negb (Str.truthy id)).
Qed.

Lemma first_classified_app cs cs' q pl e :
  first_classified cs q pl e -> first_classified (cs ++ cs') q pl e.
Proof.
  intros (l1 & l2 & -> & Hb & Hn). exists l1, (l2 ++ cs'). split; [|now split].
  now rewrite <- app_assoc.
Qed.

Lemma Inv_nil : Inv [] [].
Proof. split; [constructor | intros ? ? [] | intros ? ? ? []]. Qed.

Lemma Inv_step cs d q pl d' :
  Inv cs d -> body q d pl = Ok d' -> Inv (cs ++ [(q, pl)]) d'.
Proof.
  intros [Hnd Hent Hcomp] Hstep.
  destruct (process_place_ok _ _ _ _ Hstep)
    as [[-> Hskip] | (e & Hb & Hmem & ->)].
  - split; trivial.
    + intros k e' Hin. destruct (Hent k e' Hin) as [Hk (q0 & pl0 & Hf)].
      split; trivial. exists q0, pl0. now apply first_classified_app.
    + intros q0 pl0 id Hin. apply in_app_or in Hin as [Hin | [[= <- <-] | []]].
      * now apply Hcomp with q0.
      * apply Hskip.
  - assert (Hid : p_place_id pl = Some (tp_google_place_id e)) by apply Hb.
    assert (Htr : Str.truthy (tp_google_place_id e) = true) by apply Hb.
    split.
    + unfold dict_keys. rewrite map_app. simpl.
      apply NoDup_app; trivial.
      * repeat constructor. intros [].
      * intros k Hk [<- | []]. apply dict_mem_In in Hk. congruence.
    + intros k e' Hin. apply in_app_or in Hin as [Hin | [[= <- <-] | []]].
      * destruct (Hent k e' Hin) as [Hk (q0 & pl0 & Hf)].
        split; trivial. exists q0, pl0. now apply first_classified_app.
      * split; trivial. exists q, pl, cs, [].
        split; [reflexivity |]. split; [exact Hb |].
        intros q' pl' Hin' Hid'.
        destruct (place_mode pl') eqn:Hm; trivial.
        assert (dict_mem (tp_google_place_id e) d = true); [|congruence].
        apply Hcomp with q' pl'; trivial. congruence.
    + intros q0 pl0 id Hin Hid0 Htr0 Hm. rewrite dict_mem_app.
      apply in_app_or in Hin as [Hin | [[= <- <-] | []]].
      * rewrite (Hcomp q0 pl0 id); trivial.
      * rewrite Hid in Hid0. injection Hid0 as <-. simpl.
        rewrite String.eqb_refl. simpl. apply orb_true_r.
Qed.

Lemma steps_app cs1 cs2 d d1 :
  steps cs1 d = Some d1 -> steps (cs1 ++ cs2) d = steps cs2 d1.
Proof.
  revert d. induction cs1 as [|[q pl] cs1 IH]; simpl; intros d.
  - now intros [= ->].
  - destruct (body q d pl); [apply IH | discriminate].
Qed.

Lemma Inv_steps cs2 : forall cs1 d d',
  Inv cs1 d -> steps cs2 d = Some d' -> Inv (cs1 ++ cs2) d'.
Proof.
  induction cs2 as [|[q pl] cs2 IH]; simpl; intros cs1 d d' HI.
  - intros [= <-]. now rewrite app_nil_r.
  - destruct (body q d pl) as [d1|] eqn:Hb; [|discriminate].
    intros Hs. change ((q, pl) :: cs2) with ([(q, pl)] ++ cs2).
    rewrite app_assoc. apply IH with d1; trivial. now apply Inv_step with d.
Qed.

(** The dictionary only grows, at its end. *)
Lemma steps_extends cs : forall d d',
  steps cs d = Some d' -> exists added, d' = d ++ added.
Proof.
  induction cs as [|[q pl] cs IH]; simpl; intros d d'.
  - intros [= <-]. exists []. now rewrite app_nil_r.
  - destruct (body q d pl) as [d1|] eqn:Hb; [|discriminate].
    intros Hs. destruct (IH _ _ Hs) as [added ->].
    destruct (process_place_ok _ _ _ _ Hb) as [[-> _] | (e & _ & _ & ->)].
    + now exists added.
    + eexists. now rewrite <- app_assoc.
Qed.

Local Abbreviation results_loop := (process_results M lat lon origin_lat origin_lon).
Local Abbreviation tryq := (try_query M fetch lat lon radius origin_lat origin_lon).
Local Abbreviation run := (run_queries M fetch lat lon radius origin_lat origin_lon).

(** The inner loop runs the body over a prefix of the results, the whole of
    them when no exception leaves it. *)
Lemma process_results_steps ps : forall q d d' err,
  results_loop q d ps = (d', err) ->
  exists done rest,
    ps = done ++ rest
    /\ steps (map (pair q) done) d = Some d'
    /\ (err = None -> rest = []).
Proof.
  induction ps as [|pl ps IH]; simpl; intros q d d' err.
  - intros [= <- <-]. now exists [], [].
  - fold body. destruct (body q d pl) as [d1|e] eqn:Hb.
    + intros H. destruct (IH _ _ _ _ H) as (done & rest & -> & Hs & Hn).
      exists (pl :: done), rest. simpl. now rewrite Hb.
    + intros [= <- <-]. exists [], (pl :: ps). repeat split. discriminate.
Qed.

Lemma requests_app (l1 l2 : list event) :
  requests (l1 ++ l2) = requests l1 ++ requests l2.
Proof.
  induction l1 as [|ev l1 IH]; simpl; trivial.
  destruct (request_of ev); simpl; now rewrite IH.
Qed.

(** One iteration of the outer loop sends exactly its own request and runs
    the body over a prefix of what the query is answered with. *)
Lemma try_query_steps q d d' evs err :
  tryq q d = (d', evs, err) ->
  requests evs = [q]
  /\ exists done rest,
       offered q = done ++ rest
       /\ steps (map (pair q) done) d = Some d'
       /\ (err = None -> rest = []).
Proof.
  unfold tryq, try_query, offered.
  destruct (fetch (params_of lat lon radius q)) as [data|e0].
  2:{ intros [= <- <- <-]. split; trivial. now exists [], []. }
  destruct (pp_status data) as [status|]; simpl.
  2:{ intros [= <- <- <-]. split; trivial. now exists [], []. }
  destruct (String.eqb status "OK").
  - fold results_loop.
    destruct (results_loop q d (get_default (pp_results data) []))
      as [d1 err1] eqn:Hr.
    intros [= <- <- <-]. split; trivial.
    now apply process_results_steps.
  - destruct (negb _);
      intros [= <- <- <-]; (split; [trivial | now exists [], []]).
Qed.

(** The members returned are the values of the dictionary the body built
    over a prefix of the candidates. *)
Lemma run_steps qs : forall d log r log',
  run qs d log = (r, log') ->
  exists done rest d',
    candidates qs = done ++ rest
    /\ steps done d = Some d'
    /\ member r = dict_values d'.
Proof.
  induction qs as [|q qs IH]; simpl; intros d log r log'.
  - intros [= <- <-]. now exists [], [], d.
  - fold tryq. destruct (tryq q d) as [[d1 evs] err] eqn:Ht.
    destruct (try_query_steps _ _ _ _ _ Ht)
      as (_ & done & rest & Ho & Hs & Hn).
    destruct err as [e|].
    + intros [= <- <-]. exists (map (pair q) done), (map (pair q) rest ++ candidates qs), d1.
      rewrite Ho, map_app, <- app_assoc. now repeat split.
    + fold run. intros H.
      destruct (IH _ _ _ _ H) as (done2 & rest2 & d2 & Hc & Hs2 & Hm).
      rewrite (Hn eq_refl), app_nil_r in Ho.
      exists (map (pair q) done ++ done2), rest2, d2.
      rewrite Ho, Hc, <- app_assoc. repeat split; trivial.
      now rewrite (steps_app _ _ _ _ Hs).
Qed.

(** What holds of every result of the aggregator, with or without an error:
    identifiers are distinct and every member was built from the first
    occurrence of its identifier, in the order of the loops, that the chain
    gave a mode. *)
Lemma aggregated_entries r log :
  get_google_places_data M fetch lat lon radius origin_lat origin_lon = (r, log) ->
  NoDup (map tp_google_place_id (member r))
  /\ forall e, In e (member r) ->
       exists q pl, first_classified (candidates queries) q pl e.
Proof.
  unfold get_google_places_data. fold run. intros H.
  destruct (run_steps _ _ _ _ _ H) as (done & rest & d & Hc & Hs & Hm).
  pose proof (Inv_steps _ _ _ _ Inv_nil Hs) as [Hnd Hent _]. simpl in Hent.
  rewrite Hm. split.
  - replace (map tp_google_place_id (dict_values d)) with (dict_keys d); trivial.
    unfold dict_values, dict_keys. rewrite map_map. apply map_ext_in.
    intros [k e] Hin. simpl. apply (Hent k e Hin).
  - intros e Hin. apply in_map_iff in Hin as [[k e'] [<- Hin]].
    destruct (Hent k e' Hin) as [_ (q & pl & Hf)].
    exists q, pl. rewrite Hc. now apply first_classified_app.
Qed.

End AggregatorFacts.

(** An element of a concatenation of lists lies in one of them, after the
    lists before it. *)
Lemma flat_map_split {A B : Type} (f : A -> list B) (l : list A) :
  forall l1 x l2, flat_map f l = l1 ++ x :: l2 ->
  exists la a lb m1 m2,
    l = la ++ a :: lb /\ f a = m1 ++ x :: m2 /\ l1 = flat_map f la ++ m1.
Proof.
  induction l as [|a l IH]; simpl; intros l1 x l2 H.
  - now destruct l1.
  - apply app_eq_app in H as [l' [[Hfa Hx] | [Hl1 Hfm]]].
    + destruct l' as [|y l'].
      * simpl in Hx. symmetry in Hx.
        destruct (IH [] x l2 Hx) as (la & a' & lb & m1 & m2 & -> & Hf & Hl).
        exists (a :: la), a', lb, m1, m2. repeat split; trivial.
        simpl. rewrite <- app_assoc, <- Hl, Hfa. now rewrite !app_nil_r.
      * injection Hx as <- ->.
        exists [], a, l, l1, l'. now repeat split.
    + destruct (IH l' x l2 Hfm) as (la & a' & lb & m1 & m2 & -> & Hf & Hl).
      exists (a :: la), a', lb, m1, m2. repeat split; trivial.
      simpl. now rewrite Hl1, Hl, app_assoc.
Qed.

(** ** The outer loop, one query after the other *)

Section LoopFacts.

Variable M : mathlib.
Variable fetch : params -> result places_payload.
Variables lat lon : float.
Variable radius : Z.
Variables origin_lat origin_lon : option float.

Local Abbreviation loop_state :=
  (loop_state M fetch lat lon radius origin_lat origin_lon).

Local Abbreviation tryq := (try_query M fetch lat lon radius origin_lat origin_lon).
Local Abbreviation run := (run_queries M fetch lat lon radius origin_lat origin_lon).

Lemma run_loop_state qs : forall d log,
  run qs d log = returned (loop_state qs d log).
Proof.
  induction qs as [|q qs IH]; simpl; intros d log; trivial.
  destruct (tryq q d) as [[d' evs] [e|]]; simpl; [reflexivity | apply IH].
Qed.

Lemma loop_state_app qs1 qs2 : forall d log,
  loop_state (qs1 ++ qs2) d log
  = match loop_state qs1 d log with
    | (d1, log1, Some e) => (d1, log1, Some e)
    | (d1, log1, None) => loop_state qs2 d1 log1
    end.
Proof.
  induction qs1 as [|q qs1 IH]; simpl; intros d log; trivial.
  destruct (tryq q d) as [[d' evs] [e|]]; trivial.
Qed.

Lemma try_query_requests q d d' evs err :
  tryq q d = (d', evs, err) -> requests evs = [q].
Proof.
  intros H.
  now destruct (try_query_steps M fetch lat lon radius origin_lat origin_lon
                  _ _ _ _ _ H).
Qed.

(** The requests sent are the queries in order, up to the one that failed. *)
Lemma loop_state_requests qs : forall d log d' log' err,
  loop_state qs d log = (d', log', err) ->
  match err with
  | None => requests log' = requests log ++ qs
  | Some _ => exists done q rest,
                qs = done ++ q :: rest
                /\ requests log' = requests log ++ done ++ [q]
  end.
Proof.
  induction qs as [|q qs IH]; simpl; intros d log d' log' err.
  - intros [= <- <- <-]. now rewrite app_nil_r.
  - destruct (tryq q d) as [[d1 evs] [e|]] eqn:Ht;
      pose proof (try_query_requests _ _ _ _ _ Ht) as Hq.
    + intros [= <- <- <-]. exists [], q, qs. split; trivial.
      rewrite !requests_app, Hq. reflexivity.
    + intros H. specialize (IH _ _ _ _ _ H). rewrite requests_app, Hq in IH.
      destruct err as [e|].
      * destruct IH as (done & q' & rest & -> & Hr).
        exists (q :: done), q', rest. split; trivial.
        rewrite Hr, <- !app_assoc. reflexivity.
      * now rewrite IH, <- app_assoc.
Qed.

(** The dictionary a query is handed is kept, at the front, by what the
    query leaves. *)
Lemma try_query_extends q d d' evs err :
  tryq q d = (d', evs, err) -> exists added, d' = d ++ added.
Proof.
  intros H.
  destruct (try_query_steps M fetch lat lon radius origin_lat origin_lon
              _ _ _ _ _ H) as (_ & done & rest & _ & Hs & _).
  now apply steps_extends in Hs.
Qed.

(** A query that fails at the transport level changes nothing and is the
    last thing the loop does. *)
Lemma try_query_transport_failure q d e :
  transport_failure (fetch (params_of lat lon radius q)) e ->
  tryq q d = (d, [PlacesGet (params_of lat lon radius q)], Some e).
Proof.
  unfold tryq, try_query.
  intros [-> | (data & -> & Hst & ->)]; trivial. now rewrite Hst.
Qed.

(** A status that is neither OK nor ZERO_RESULTS: a warning, and the loop
    goes on from the same dictionary. *)
Lemma try_query_other_status q d data status :
  fetch (params_of lat lon radius q) = Ok data ->
  pp_status data = Some status ->
  status <> "OK" -> status <> "ZERO_RESULTS" ->
  tryq q d
  = (d, [PlacesGet (params_of lat lon radius q);
         StWarning (warning_text q status data)], None).
Proof.
  intros Hf Hs Hok Hzero. unfold tryq, try_query. rewrite Hf, Hs. simpl.
  apply String.eqb_neq in Hok, Hzero. now rewrite Hok, Hzero.
Qed.

End LoopFacts.

(** ** Whole runs *)

(** A run that returned no error went through all its queries. *)
Lemma run_without_error M fetch lat lon radius olat olon qs r log :
  run_queries M fetch lat lon radius olat olon qs [] [] = (r, log) ->
  error r = None ->
  exists d,
    loop_state M fetch lat lon radius olat olon qs [] [] = (d, log, None)
    /\ r = {| error := None; member := dict_values d |}
    /\ requests log = qs.
Proof.
  rewrite run_loop_state.
  destruct (loop_state M fetch lat lon radius olat olon qs [] [])
    as [[d l] [e|]] eqn:Hl; simpl.
  - intros [= <- <-]. discriminate.
  - intros [= <- <-] _. exists d. repeat split.
    now apply loop_state_requests in Hl.
Qed.

(** ** The classification chain *)

(** The chain of the code computes the first matching rule of the list. *)
Lemma classify_first_match (name : string) (tags : list string) :
  classify (Str.lower name) tags = Spec.mode_of name tags.
Proof.
  unfold Spec.mode_of, Spec.rules, Spec.first_match, classify.
  rewrite <- !StrFacts.str_in_lower. reflexivity.
Qed.

(** "Metrolink" in the name decides, whatever stands around it. *)
Lemma classify_metrolink (pre post : string) (tags : list string) :
  classify (Str.lower (pre ++ "Metrolink" ++ post)) tags = Some tram_stop.
Proof.
  unfold classify. rewrite !StrFacts.lower_app.
  change (Str.lower "Metrolink") with "metrolink".
  now rewrite StrFacts.str_in_app.
Qed.

(** A store shows in the modes through the mode of the entry only. *)
Lemma modes_dict_set (d : places_dict) (k : string) (v w : transport_place) :
  tp_type v = tp_type w -> modes (dict_set d k v) = modes (dict_set d k w).
Proof.
  intros H. induction d as [|[k' v'] d IH]; simpl.
  - now rewrite H.
  - destruct (String.eqb k k'); simpl; [now rewrite H | now rewrite IH].
Qed.

(** ** The distance of a member *)

(** What line 169 gives each member: the distance from the origin when both
    origin coordinates are given and neither is a zero, nothing when one of
    them is missing, and nothing either when one of them is a zero. *)
Lemma member_distance M fetch lat lon radius origin_lat origin_lon e :
  In e (member (fst (get_google_places_data M fetch lat lon radius
                       origin_lat origin_lon))) ->
  (forall a b,
     origin_lat = Some a -> origin_lon = Some b ->
     PyFloat.truthy a = true -> PyFloat.truthy b = true ->
     exists n, haversine M a b (tp_latitude e) (tp_longitude e) = Ok n
               /\ tp_distance e = Some n)
  /\ (origin_lat = None \/ origin_lon = None -> tp_distance e = None)
  /\ (forall a, (origin_lat = Some a \/ origin_lon = Some a) ->
                PyFloat.truthy a = false -> tp_distance e = None).
Proof.
  intros Hin.
  destruct (get_google_places_data M fetch lat lon radius origin_lat origin_lon)
    as [r log] eqn:Hrun.
  destruct (aggregated_entries _ _ _ _ _ _ _ _ _ Hrun) as [_ Hent].
  destruct (Hent e Hin) as (q & pl & _ & _ & _ & Hb & _).
  destruct Hb as (_ & _ & _ & _ & _ & _ & _ & _ & Hd).
  unfold distance_val in Hd. split; [|split].
  - intros a b -> -> Ha Hb. simpl in Hd. rewrite Ha, Hb in Hd. simpl in Hd.
    destruct (haversine M a b (tp_latitude e) (tp_longitude e)) as [n|];
      [|discriminate].
    exists n. split; trivial. simpl in Hd. congruence.
  - intros [-> | ->]; simpl in Hd; rewrite ?andb_false_r in Hd; congruence.
  - intros a [-> | ->] Ha; simpl in Hd; rewrite Ha in Hd;
      rewrite ?andb_false_r in Hd; simpl in Hd; congruence.
Qed.

(** ** The sort *)

(** The order of the keys is transitive and extends [<]. *)
Lemma key_le_trans (a b c : sort_key) : key_le a b -> key_le b c -> key_le a c.
Proof.
  unfold key_le. destruct a, b, c; simpl; trivial; try discriminate.
  rewrite !Z.ltb_ge. lia.
Qed.

Lemma key_lt_le (a b : sort_key) : key_ltb a b = true -> key_le a b.
Proof.
  unfold key_le. destruct a, b; simpl; trivial; try discriminate.
  rewrite Z.ltb_lt, Z.ltb_ge. lia.
Qed.

Section SortFacts.

Context {A : Type}.
Variable key : A -> sort_key.

Let le (x y : A) : Prop := key_le (key x) (key y).

(** Sorting permutes, and its result is sorted. *)
Lemma insert_sorted_perm (x : A) (l : list A) :
  Permutation (x :: l) (insert_sorted key x l).
Proof.
  induction l as [|y l IH]; simpl; trivial.
  destruct (key_ltb (key y) (key x)); trivial.
  now rewrite perm_swap, IH.
Qed.

Lemma list_sort_perm (l : list A) : Permutation l (list_sort key l).
Proof.
  induction l as [|x l IH]; simpl; trivial.
  now rewrite <- insert_sorted_perm, <- IH.
Qed.

Lemma insert_sorted_sorted (x : A) (l : list A) :
  StronglySorted le l -> StronglySorted le (insert_sorted key x l).
Proof.
  induction 1 as [|y l Hs IH Hall]; simpl.
  - repeat constructor.
  - destruct (key_ltb (key y) (key x)) eqn:Hyx.
    + constructor; trivial.
      rewrite <- insert_sorted_perm. constructor; trivial.
      now apply key_lt_le.
    + constructor; [now constructor |].
      constructor; [exact Hyx |].
      eapply Forall_impl; [|exact Hall].
      intros z Hz. unfold le in *. eapply key_le_trans; [exact Hyx | exact Hz].
Qed.

Lemma list_sort_sorted (l : list A) : StronglySorted le (list_sort key l).
Proof.
  induction l as [|x l IH]; simpl; [constructor |].
  now apply insert_sorted_sorted.
Qed.

(** In a sorted list, what stands earlier is below what stands later. *)
Lemma sorted_nth (R : A -> A -> Prop) (l : list A) :
  StronglySorted R l ->
  forall i j x y, i < j -> nth_error l i = Some x -> nth_error l j = Some y ->
                  R x y.
Proof.
  induction 1 as [|z l Hs IH Hall]; intros i j x y Hij Hi Hj.
  - now destruct i.
  - destruct j as [|j]; [lia |]. simpl in Hj.
    destruct i as [|i]; simpl in Hi.
    + injection Hi as <-. rewrite Forall_forall in Hall.
      apply Hall. now apply nth_error_In in Hj.
    + apply IH with i j; trivial. lia.
Qed.

End SortFacts.

(** ** Facts of binary64 arithmetic *)

(** On the specification of the operations: a change of sign goes through
    rounding, and a product of small numbers does not overflow. *)
Module IEEE.

Local Open Scope float_scope.

(** Rounding keeps the magnitude when the sign changes. *)
Lemma binary_round_aux_opp s m e l :
  SFopp (binary_round_aux prec emax s m e l)
  = binary_round_aux prec emax (negb s) m e l.
Proof.
  unfold binary_round_aux.
  destruct (shr_fexp prec emax m e l) as [mrs' e'].
  destruct (shr_fexp prec emax _ e' loc_Exact) as [mrs'' e''].
  destruct (shr_m mrs''); simpl; trivial.
  now destruct (Z.leb _ _).
Qed.

(** The sign goes through a product and a quotient; a product commutes. *)
Lemma SFmul_opp_l x y :
  SFmul prec emax (SFopp x) y = SFopp (SFmul prec emax x y).
Proof.
  destruct x as [sx|sx| |sx mx ex], y as [sy|sy| |sy my ey]; simpl; trivial;
    try (now destruct sx, sy).
  rewrite binary_round_aux_opp. now destruct sx, sy.
Qed.

Lemma SFdiv_opp_l x y :
  SFdiv prec emax (SFopp x) y = SFopp (SFdiv prec emax x y).
Proof.
  destruct x as [sx|sx| |sx mx ex], y as [sy|sy| |sy my ey]; simpl; trivial;
    try (now destruct sx, sy).
  destruct (SFdiv_core_binary _ _ _ _ _ _) as [[mz ez] lz].
  rewrite binary_round_aux_opp. now destruct sx, sy.
Qed.

Lemma SFmul_comm x y : SFmul prec emax x y = SFmul prec emax y x.
Proof.
  destruct x as [sx|sx| |sx mx ex], y as [sy|sy| |sy my ey]; simpl; trivial;
    try (now destruct sx, sy).
  now rewrite xorb_comm, Pos.mul_comm, Z.add_comm.
Qed.

(** A difference changes sign when its terms are swapped, unless it is the
    positive zero both ways. *)
Lemma binary_round_opp s m e :
  SFopp (binary_round prec emax s m e) = binary_round prec emax (negb s) m e.
Proof.
  unfold binary_round. destruct (shl_align _ _ _) as [mz ez].
  apply binary_round_aux_opp.
Qed.

Lemma binary_normalize_opp z e :
  z <> 0%Z ->
  binary_normalize prec emax (- z) e false
  = SFopp (binary_normalize prec emax z e false).
Proof.
  destruct z as [|p|p]; simpl; [congruence | |]; intros _;
    now rewrite binary_round_opp.
Qed.

Lemma SFsub_antisym x y :
  SFsub prec emax y x = SFopp (SFsub prec emax x y)
  \/ (SFsub prec emax x y = S754_zero false
      /\ SFsub prec emax y x = S754_zero false).
Proof.
  destruct x as [sx|sx| |sx mx ex], y as [sy|sy| |sy my ey]; simpl;
    try (destruct sx, sy; simpl; tauto); try (left; reflexivity).
  change IntDef.Z.min with Z.min. rewrite (Z.min_comm ey ex).
  set (ez := Z.min ex ey).
  set (X := cond_Zopp sx (Z.pos (fst (shl_align mx ex ez)))).
  set (Y := cond_Zopp sy (Z.pos (fst (shl_align my ey ez)))).
  replace (Y - X)%Z with (- (X - Y))%Z by lia.
  destruct (Z.eq_dec (X - Y) 0) as [E|E].
  - right. rewrite E. simpl. tauto.
  - left. now apply binary_normalize_opp.
Qed.

(** A number minus itself is the positive zero. *)
Lemma SFsub_self x : is_number x -> SFsub prec emax x x = S754_zero false.
Proof.
  destruct x as [sx|sx| |sx mx ex]; simpl; try tauto; intros _.
  - now destruct sx.
  - now rewrite Z.sub_diag.
Qed.


(** *** No overflow in a product of small numbers *)

(** A mantissa of [d] binary digits lies between [2^(d-1)] and [2^d]. *)
Lemma digits2_pos_lt m : (Z.pos m < 2 ^ Z.pos (digits2_pos m))%Z.
Proof.
  induction m as [p IH|p IH|]; simpl digits2_pos;
    rewrite ?Pos2Z.inj_succ, ?Z.pow_succ_r by lia; lia.
Qed.

Lemma digits2_pos_ge m : (2 ^ (Z.pos (digits2_pos m) - 1) <= Z.pos m)%Z.
Proof.
  induction m as [p IH|p IH|]; simpl digits2_pos;
    rewrite ?Pos2Z.inj_succ; try (now simpl);
    replace (Z.succ (Z.pos (digits2_pos p)) - 1)%Z
      with (Z.succ (Z.pos (digits2_pos p) - 1)) by lia;
    rewrite Z.pow_succ_r by lia; lia.
Qed.

Lemma Zdigits2_le z k :
  (0 <= z < 2 ^ k)%Z -> (0 <= k)%Z -> (Zdigits2 z <= k)%Z.
Proof.
  intros [H0 Hk] Hk0. destruct z as [|m|m]; simpl; [lia | | lia].
  pose proof (digits2_pos_ge m) as Hge.
  destruct (Z_le_gt_dec (Z.pos (digits2_pos m)) k) as [|Hgt]; trivial.
  assert (2 ^ k <= 2 ^ (Z.pos (digits2_pos m) - 1))%Z
    by (apply Z.pow_le_mono_r; lia).
  lia.
Qed.

(** Shifting right and rounding: the mantissa stays non-negative and grows
    by one at most, the exponent goes up to the format's at most. *)
Lemma shr_1_bound mrs :
  (0 <= shr_m mrs)%Z -> (0 <= shr_m (shr_1 mrs) <= shr_m mrs)%Z.
Proof.
  destruct mrs as [m r s]. destruct m as [|[p|p|]|[p|p|]]; simpl; lia.
Qed.

Lemma iter_shr_1_bound p : forall mrs,
  (0 <= shr_m mrs)%Z -> (0 <= shr_m (iter_pos shr_1 p mrs) <= shr_m mrs)%Z.
Proof.
  induction p as [p IH|p IH|]; simpl; intros mrs H.
  - pose proof (shr_1_bound mrs H) as H1.
    pose proof (IH _ (proj1 H1)) as H2.
    pose proof (IH _ (proj1 H2)) as H3. lia.
  - pose proof (IH _ H) as H2.
    pose proof (IH _ (proj1 H2)) as H3. lia.
  - now apply shr_1_bound.
Qed.

Lemma shr_fexp_bound m e l mrs e' :
  (0 <= m)%Z ->
  shr_fexp prec emax m e l = (mrs, e') ->
  (0 <= shr_m mrs <= m)%Z
  /\ (e' <= Z.max e (fexp prec emax (Zdigits2 m + e)))%Z.
Proof.
  intros Hm. unfold shr_fexp, shr.
  assert (Hr : shr_m (shr_record_of_loc m l) = m) by now destruct l as [|[]].
  destruct (fexp prec emax (Zdigits2 m + e) - e)%Z as [|p|p] eqn:Hn;
    intros [= <- <-]; rewrite ?Hr; try (split; lia).
  pose proof (iter_shr_1_bound p (shr_record_of_loc m l)) as H.
  rewrite Hr in H. split; [now apply H | lia].
Qed.

Lemma round_nearest_even_bound m l :
  (m <= round_nearest_even m l <= m + 1)%Z.
Proof. destruct l as [|[]]; simpl; try lia. destruct (Z.even m); lia. Qed.

(** Rounding [m * 2^e], with [m] below [2^106] and [e] at most 800, gives a
    number: the exponent stays more than sixty binades under the largest. *)
Lemma binary_round_aux_small s m e :
  (0 <= m < 2 ^ 106)%Z -> (e <= 800)%Z ->
  is_number (binary_round_aux prec emax s m e loc_Exact).
Proof.
  intros Hm He. unfold binary_round_aux.
  destruct (shr_fexp prec emax m e loc_Exact) as [mrs' e'] eqn:H1.
  apply shr_fexp_bound in H1 as [Hm1 He1]; [|lia].
  pose proof (Zdigits2_le m 106 Hm ltac:(lia)) as Hd.
  set (m1 := round_nearest_even (shr_m mrs') (loc_of_shr_record mrs')).
  pose proof (round_nearest_even_bound (shr_m mrs') (loc_of_shr_record mrs'))
    as Hr. fold m1 in Hr.
  destruct (shr_fexp prec emax m1 e' loc_Exact) as [mrs'' e''] eqn:H2.
  apply shr_fexp_bound in H2 as [Hm2 He2]; [|lia].
  assert (Hd1 : (Zdigits2 m1 <= 107)%Z).
  { apply Zdigits2_le; [|lia]. split; [lia |].
    replace (2 ^ 107)%Z with (2 * 2 ^ 106)%Z by reflexivity. lia. }
  unfold fexp, SpecFloat.emin, prec, emax in *.
  change IntDef.Z.max with Z.max in *.
  destruct (shr_m mrs'') as [|p|p]; simpl; trivial; [|lia].
  destruct (Z.leb_spec e'' 971); simpl; trivial. lia.
Qed.

(** The mantissa of a float has 53 digits at most. *)
Lemma valid_mantissa s m e :
  valid_binary (S754_finite s m e) = true -> (Z.pos m < 2 ^ 53)%Z.
Proof.
  simpl. unfold bounded, canonical_mantissa, fexp, SpecFloat.emin, prec, emax.
  intros H. apply andb_prop in H as [H _]. apply Z.eqb_eq in H.
  pose proof (digits2_pos_lt m) as Hlt.
  assert (Z.pos (digits2_pos m) <= 53)%Z by lia.
  assert (2 ^ Z.pos (digits2_pos m) <= 2 ^ 53)%Z
    by (apply Z.pow_le_mono_r; lia).
  lia.
Qed.

Lemma SFmul_small x y :
  valid_binary x = true -> valid_binary y = true ->
  match x, y with
  | S754_finite _ _ ex, S754_finite _ _ ey => (ex + ey <= 800)%Z
  | S754_zero _, S754_zero _
  | S754_zero _, S754_finite _ _ _ | S754_finite _ _ _, S754_zero _ => True
  | _, _ => False
  end ->
  is_number (SFmul prec emax x y).
Proof.
  destruct x as [sx|sx| |sx mx ex], y as [sy|sy| |sy my ey]; simpl;
    intros Vx Vy He; try exact I; try contradiction.
  apply binary_round_aux_small; trivial.
  apply (valid_mantissa sx) in Vx. apply (valid_mantissa sy) in Vy.
  rewrite Pos2Z.inj_mul.
  replace (2 ^ 106)%Z with (2 ^ 53 * 2 ^ 53)%Z by reflexivity. nia.
Qed.

End IEEE.

(** The same on the floats themselves. *)
Module FloatFacts.

Local Open Scope float_scope.

(** The laws of signs and the commutation, on floats. *)
Lemma opp_mul (x y : float) : - x * y = - (x * y).
Proof.
  apply Prim2SF_inj. rewrite mul_spec, !opp_spec, mul_spec.
  apply IEEE.SFmul_opp_l.
Qed.

Lemma opp_div (x y : float) : - x / y = - (x / y).
Proof.
  apply Prim2SF_inj. rewrite div_spec, !opp_spec, div_spec.
  apply IEEE.SFdiv_opp_l.
Qed.

Lemma mul_comm (x y : float) : x * y = y * x.
Proof. apply Prim2SF_inj. rewrite !mul_spec. apply IEEE.SFmul_comm. Qed.

Lemma opp_opp (x : float) : - - x = x.
Proof.
  apply Prim2SF_inj. rewrite !opp_spec.
  destruct (Prim2SF x); simpl; now rewrite ?negb_involutive.
Qed.

Lemma sub_antisym (x y : float) :
  y - x = - (x - y) \/ (x - y = 0 /\ y - x = 0).
Proof.
  destruct (IEEE.SFsub_antisym (Prim2SF x) (Prim2SF y)) as [H | [H1 H2]].
  - left. apply Prim2SF_inj. now rewrite opp_spec, !sub_spec.
  - right. split; apply Prim2SF_inj; now rewrite sub_spec.
Qed.

Lemma isfinite_number (x : float) :
  PyFloat.isfinite x = true <-> is_number (Prim2SF x).
Proof.
  unfold PyFloat.isfinite. destruct (Prim2SF x); simpl; intuition congruence.
Qed.

(** [x - x] is [0.0] for a finite [x]. *)
Lemma sub_self (x : float) : PyFloat.isfinite x = true -> x - x = 0.
Proof.
  intros H. apply isfinite_number in H.
  apply Prim2SF_inj. rewrite sub_spec. now apply IEEE.SFsub_self.
Qed.

(** A product with zero of a finite number vanishes in a sum with zero. *)
Lemma add_mul_zero (t : float) : PyFloat.isfinite t = true -> 0 + t * 0 = 0.
Proof.
  intros H. apply isfinite_number in H.
  apply Prim2SF_inj. rewrite add_spec, mul_spec.
  change (Prim2SF 0) with (S754_zero false).
  destruct (Prim2SF t) as [s|s| |s m e]; simpl in *; try contradiction;
    now destruct s.
Qed.

(** A float between [-b] and [b] is a number whose exponent is at most
    that of [b]. *)
Lemma between_exponent (b x : float) (mb : positive) (eb : Z) :
  Prim2SF b = S754_finite false mb eb ->
  PyFloat.between (- b) x b = true ->
  match Prim2SF x with
  | S754_zero _ => True
  | S754_finite _ _ e => (e <= eb)%Z
  | _ => False
  end.
Proof.
  intros Hb H. unfold PyFloat.between in H.
  apply andb_prop in H as [Hlo Hhi].
  rewrite leb_spec, opp_spec, Hb in Hlo. rewrite leb_spec, Hb in Hhi.
  unfold SFleb, SFcompare in *. simpl in Hlo.
  destruct (Prim2SF x) as [s|s| |s m e]; trivial; try discriminate.
  - now destruct s.
  - destruct s.
    + destruct (Z.compare_spec eb e); try discriminate; lia.
    + destruct (Z.compare_spec e eb); try discriminate; lia.
Qed.

(** A product of two numbers with small exponents is a number. *)
Lemma mul_small (x y : float) (B : Z) :
  match Prim2SF x with
  | S754_zero _ => True | S754_finite _ _ e => (e <= B)%Z | _ => False
  end ->
  match Prim2SF y with
  | S754_zero _ => True | S754_finite _ _ e => (e + B <= 800)%Z | _ => False
  end ->
  PyFloat.isfinite (x * y) = true.
Proof.
  intros Hx Hy. apply isfinite_number. rewrite mul_spec.
  apply IEEE.SFmul_small; try apply Prim2SF_valid.
  destruct (Prim2SF x), (Prim2SF y); trivial; try contradiction. lia.
Qed.

(** The radians of a latitude are a finite number. *)
Lemma radians_finite (x : float) :
  PyFloat.between (-90) x 90 = true -> PyFloat.isfinite (PyFloat.radians x) = true.
Proof.
  intros H. unfold PyFloat.radians.
  apply mul_small with (B := (-46)%Z).
  - apply (between_exponent 90 x 6333186975989760 (-46)); trivial.
  - now vm_compute.
Qed.

(** The square of a cosine is a finite number. *)
Lemma square_finite (c : float) :
  PyFloat.between (-1) c 1 = true -> PyFloat.isfinite (c * c) = true.
Proof.
  intros H.
  pose proof (between_exponent 1 c 4503599627370496 (-52) eq_refl H) as Hc.
  apply mul_small with (B := (-52)%Z); trivial.
  destruct (Prim2SF c); trivial. lia.
Qed.

Lemma between_finite (b x : float) (mb : positive) (eb : Z) :
  Prim2SF b = S754_finite false mb eb ->
  PyFloat.between (- b) x b = true -> PyFloat.isfinite x = true.
Proof.
  intros Hb H. pose proof (between_exponent b x mb eb Hb H) as Hx.
  unfold PyFloat.isfinite. now destruct (Prim2SF x).
Qed.

End FloatFacts.

(** ** The distance function *)

Section HaversineFacts.

Local Open Scope float_scope.

Variable M : mathlib.
Hypothesis laws : math_laws M.

Local Abbreviation squared_sine := (squared_sine M).
Local Abbreviation from_a := (from_a M).

(** The result of [haversine], read term by term. *)
Lemma haversine_value (lat1 lon1 lat2 lon2 : float) :
  value_of (haversine M lat1 lon1 lat2 lon2)
  = match squared_sine (lat2 - lat1),
          value_of (math_cos M (PyFloat.radians lat1)),
          value_of (math_cos M (PyFloat.radians lat2)),
          squared_sine (lon2 - lon1) with
    | Some p1, Some c1, Some c2, Some p2 =>
        value_of (from_a (p1 + c1 * c2 * p2))
    | _, _, _, _ => None
    end.
Proof.
  unfold haversine, squared_sine, from_a.
  destruct (math_sin M (PyFloat.radians (lat2 - lat1) / 2)) as [s1|]; simpl;
    trivial.
  destruct (float_pow M s1 2) as [p1|]; simpl; trivial.
  destruct (math_cos M (PyFloat.radians lat1)) as [c1|]; simpl; trivial.
  destruct (math_cos M (PyFloat.radians lat2)) as [c2|]; simpl; trivial.
  destruct (math_sin M (PyFloat.radians (lon2 - lon1) / 2)) as [s2|]; simpl;
    trivial.
  destruct (float_pow M s2 2) as [p2|]; simpl; trivial.
Qed.

(** The squared sine does not see the sign of the angle, so it does not see
    in which order the two points were subtracted. *)
Lemma squared_sine_opp (u : float) : squared_sine (- u) = squared_sine u.
Proof.
  unfold squared_sine, PyFloat.radians.
  rewrite FloatFacts.opp_mul, FloatFacts.opp_div.
  pose proof (sin_odd M laws (u * PyFloat.degToRad / 2)) as Hs.
  destruct (math_sin M (u * PyFloat.degToRad / 2)) as [s|],
           (math_sin M (- (u * PyFloat.degToRad / 2))) as [s'|];
    simpl in *; try discriminate; trivial.
  injection Hs as ->. apply (pow_even M laws).
Qed.

Lemma squared_sine_swap (a c : float) :
  squared_sine (c - a) = squared_sine (a - c).
Proof.
  destruct (FloatFacts.sub_antisym a c) as [H | [H1 H2]].
  - rewrite H. apply squared_sine_opp.
  - now rewrite H1, H2.
Qed.

Lemma haversine_symmetric (a b c d : float) :
  value_of (haversine M a b c d) = value_of (haversine M c d a b).
Proof.
  rewrite !haversine_value.
  rewrite (squared_sine_swap a c), (squared_sine_swap b d).
  destruct (squared_sine (a - c)) as [p1|],
           (value_of (math_cos M (PyFloat.radians a))) as [c1|],
           (value_of (math_cos M (PyFloat.radians c))) as [c2|],
           (squared_sine (b - d)) as [p2|]; trivial.
  now rewrite (FloatFacts.mul_comm c1 c2).
Qed.

Lemma haversine_same_point (x y : float) :
  PyFloat.between (-90) x 90 = true ->
  PyFloat.between (-180) y 180 = true ->
  haversine M x y x y = Ok 0%Z.
Proof.
  intros Hx Hy.
  assert (Fx : PyFloat.isfinite x = true)
    by (eapply (FloatFacts.between_finite 90); [reflexivity | exact Hx]).
  assert (Fy : PyFloat.isfinite y = true)
    by (eapply (FloatFacts.between_finite 180); [reflexivity | exact Hy]).
  destruct (cos_range M laws _ (FloatFacts.radians_finite x Hx))
    as (c & Hc & Hr).
  unfold haversine.
  rewrite (FloatFacts.sub_self x Fx), (FloatFacts.sub_self y Fy).
  replace (PyFloat.radians 0 / 2) with 0 by reflexivity.
  rewrite (sin_zero M laws). simpl.
  rewrite (pow_zero M laws). simpl.
  rewrite Hc. simpl.
  rewrite (FloatFacts.add_mul_zero _ (FloatFacts.square_finite c Hr)).
  replace (PyFloat.math_sqrt 0) with (@Ok float 0) by reflexivity. simpl.
  replace (PyFloat.math_sqrt (1 - 0)) with (@Ok float 1) by reflexivity. simpl.
  rewrite (atan2_zero M laws). reflexivity.
Qed.

End HaversineFacts.

(** The stand-in of the worked inputs keeps the laws. *)
Lemma small_angle_laws : math_laws Fixture.small_angle.
Proof.
  split; simpl; trivial.
  - intros x _. now exists 1%float.
  - intros x. f_equal.
    now rewrite FloatFacts.opp_mul, (FloatFacts.mul_comm x (- x)),
      FloatFacts.opp_mul, FloatFacts.opp_opp.
Qed.

Section MoreAggregatorFacts.

Variable M : mathlib.
Variable fetch : params -> result places_payload.
Variables lat lon : float.
Variable radius : Z.
Variables origin_lat origin_lon : option float.

Local Abbreviation offered := (offered fetch lat lon radius).
Local Abbreviation candidates := (candidates fetch lat lon radius).
Local Abbreviation Inv := (Inv M lat lon origin_lat origin_lon).
Local Abbreviation steps := (steps M lat lon origin_lat origin_lon).
Local Abbreviation loop_state :=
  (loop_state M fetch lat lon radius origin_lat origin_lon).
Local Abbreviation tryq :=
  (try_query M fetch lat lon radius origin_lat origin_lon).
Local Abbreviation run :=
  (run_queries M fetch lat lon radius origin_lat origin_lon).
Local Abbreviation sent := (params_of lat lon radius).

Lemma places_requests_app (l1 l2 : list event) :
  places_requests (l1 ++ l2) = places_requests l1 ++ places_requests l2.
Proof.
  induction l1 as [|ev l1 IH]; simpl; trivial.
  destruct ev; simpl; now rewrite IH.
Qed.

(** One iteration sends one request, that of its query at the centre and
    with the radius of the call. *)
Lemma try_query_sent q d d' evs err :
  tryq q d = (d', evs, err) -> places_requests evs = [sent q].
Proof.
  unfold try_query.
  destruct (fetch (sent q)) as [data|e0]; [|now intros [= <- <- <-]].
  destruct (subscript "status" (pp_status data)) as [status|e0];
    [|now intros [= <- <- <-]].
  destruct (String.eqb status "OK").
  - destruct (process_results _ _ _ _ _ _ _ _) as [d1 err1].
    now intros [= <- <- <-].
  - destruct (negb _); now intros [= <- <- <-].
Qed.

(** The requests of the loop are those of the queries up to the one whose
    iteration raised, all of them when none did. *)
Lemma loop_state_sent qs : forall d log d' log' err,
  loop_state qs d log = (d', log', err) ->
  exists k,
    k <= List.length qs
    /\ places_requests log' = places_requests log ++ map sent (firstn k qs)
    /\ match err with
       | None => k = List.length qs
       | Some _ => 1 <= k
       end.
Proof.
  induction qs as [|q qs IH]; simpl; intros d log d' log' err.
  - intros [= <- <- <-]. exists 0. simpl. now rewrite app_nil_r.
  - destruct (tryq q d) as [[d1 evs] [e|]] eqn:Ht;
      pose proof (try_query_sent _ _ _ _ _ Ht) as Hs.
    + intros [= <- <- <-]. exists 1. simpl.
      rewrite !places_requests_app, Hs. simpl.
      repeat split; try lia.
    + intros H. destruct (IH _ _ _ _ _ H) as (k & Hk & Hreq & Herr).
      exists (S k). simpl. rewrite Hreq, places_requests_app, Hs, <- app_assoc.
      repeat split; try lia. destruct err; lia.
Qed.

(** When no iteration raised, the body ran over every candidate. *)
Lemma loop_state_steps qs : forall d log d' log',
  loop_state qs d log = (d', log', None) -> steps (candidates qs) d = Some d'.
Proof.
  induction qs as [|q qs IH]; simpl; intros d log d' log'.
  - now intros [= <- <-].
  - destruct (tryq q d) as [[d1 evs] [e|]] eqn:Ht; [discriminate |].
    intros H.
    destruct (try_query_steps M fetch lat lon radius origin_lat origin_lon
                _ _ _ _ _ Ht) as (_ & done & rest & Ho & Hs & Hn).
    rewrite (Hn eq_refl), app_nil_r in Ho. unfold candidates. simpl.
    fold (candidates qs).
    rewrite Ho.
    rewrite (steps_app M lat lon origin_lat origin_lon _ _ _ _ Hs).
    now apply IH with (log ++ evs) log'.
Qed.

(** The loop keeps the dictionary it starts from, at the front. *)
Lemma loop_state_extends qs : forall d log d' log' err,
  loop_state qs d log = (d', log', err) -> exists added, d' = d ++ added.
Proof.
  induction qs as [|q qs IH]; simpl; intros d log d' log' err.
  - intros [= <- <- <-]. exists []. now rewrite app_nil_r.
  - destruct (tryq q d) as [[d1 evs] e] eqn:Ht.
    destruct (try_query_extends M fetch lat lon radius origin_lat origin_lon
                _ _ _ _ _ Ht) as [a1 ->].
    destruct e as [e|].
    + intros [= <- <- <-]. now exists a1.
    + intros H. destruct (IH _ _ _ _ _ H) as [a2 ->].
      exists (a1 ++ a2). now rewrite app_assoc.
Qed.

(** The log a run starts with has no part in the dictionary it builds. *)
Lemma loop_state_log qs : forall d log1 log2,
  fst (fst (loop_state qs d log1)) = fst (fst (loop_state qs d log2))
  /\ snd (loop_state qs d log1) = snd (loop_state qs d log2).
Proof.
  induction qs as [|q qs IH]; simpl; intros d log1 log2; [now split |].
  destruct (tryq q d) as [[d1 evs] [e|]]; simpl; [now split | apply IH].
Qed.

(** An answer that brings nothing leaves the dictionary and raises nothing. *)
Lemma try_query_barren q d :
  barren (fetch (sent q)) -> exists evs, tryq q d = (d, evs, None).
Proof.
  intros (data & status & Hf & Hs & Hb). unfold try_query.
  rewrite Hf, Hs. simpl.
  destruct (String.eqb status "OK") eqn:Hok.
  - destruct Hb as [Hb | Hb]; [apply String.eqb_eq in Hok; contradiction |].
    rewrite Hb. simpl. now eexists.
  - destruct (negb _); now eexists.
Qed.

End MoreAggregatorFacts.

(** Membership in a list of types, as the chain tests it, sees the list as a
    set. *)
Lemma list_in_ext (x : string) (l1 l2 : list string) :
  (forall t, In t l1 <-> In t l2) -> Str.list_in x l1 = Str.list_in x l2.
Proof.
  intros H. unfold Str.list_in.
  destruct (existsb (String.eqb x) l1) eqn:E1, (existsb (String.eqb x) l2) eqn:E2;
    trivial.
  - apply existsb_exists in E1 as (t & Hin & Ht). apply H in Hin.
    assert (existsb (String.eqb x) l2 = true) by (apply existsb_exists; eauto).
    congruence.
  - apply existsb_exists in E2 as (t & Hin & Ht). apply H in Hin.
    assert (existsb (String.eqb x) l1 = true) by (apply existsb_exists; eauto).
    congruence.
Qed.

(** What [run_queries] returns, read off the loop: the error is set exactly
    when an iteration raised. *)
Lemma returned_error st :
  error (fst (returned st)) = None <-> snd st = None.
Proof. destruct st as [[d log] [e|]]; simpl; split; congruence. Qed.

Lemma returned_member st :
  member (fst (returned st)) = dict_values (fst (fst st)).
Proof. now destruct st as [[d log] [e|]]. Qed.

(** ** The geocode resolver and the flow *)

(** The resolver sends nothing to the places service. *)
Lemma geocode_sends_no_places_request
    (geocode_fetch : string -> result geocode_payload) (pc : string) :
  places_requests (snd (get_google_geocode_data geocode_fetch pc)) = [].
Proof.
  unfold get_google_geocode_data, geocode_body, no_location.
  destruct (geocode_fetch pc) as [data|[m|m]]; simpl; trivial.
  destruct (gp_status data) as [status|]; simpl; trivial.
  destruct (String.eqb status "OK"); simpl.
  - destruct (gp_results data) as [[|first rest]|]; simpl; trivial.
    + now destruct (String.eqb status "ZERO_RESULTS").
    + now destruct (location_of pc first) as [l|[m|m]].
  - now destruct (String.eqb status "ZERO_RESULTS").
Qed.

(** What a location holds of the result it was read from. *)
Lemma location_of_fields (pc : string) (first : geocode_result)
    (l : location_data) :
  location_of pc first = Ok l ->
  postcode l = pc
  /\ formatted_address l = get_default (gr_formatted_address first) pc
  /\ exists g loc comps,
       gr_geometry first = Some g /\ gm_location g = Some loc
       /\ ll_lat loc = Some (latitude l) /\ ll_lng loc = Some (longitude l)
       /\ gr_address_components first = Some comps
       /\ first_long_name "administrative_area_level_2" comps
          = Ok (admin_district l)
       /\ first_long_name "administrative_area_level_1" comps
          = Ok (region l).
Proof.
  unfold location_of.
  destruct (gr_geometry first) as [g|] eqn:Hg; simpl; [|discriminate].
  destruct (gm_location g) as [loc|] eqn:Hloc; simpl; [|discriminate].
  destruct (gr_address_components first) as [comps|] eqn:Hc; simpl;
    [|discriminate].
  destruct (first_long_name "administrative_area_level_2" comps) as [d|]
    eqn:Hd; simpl; [|discriminate].
  destruct (first_long_name "administrative_area_level_1" comps) as [r|]
    eqn:Hr; simpl; [|discriminate].
  destruct (ll_lat loc) as [la|] eqn:Hla; simpl; [|discriminate].
  destruct (ll_lng loc) as [lo|] eqn:Hlo; simpl; [|discriminate].
  intros [= <-]. simpl. split; [reflexivity |]. split; [reflexivity |].
  exists g, loc, comps. repeat split; assumption.
Qed.

(** ** Stability of the sort *)

(** Two keys that are equal to a third are not one below the other. *)
Lemma key_eqb_not_ltb (a b k : sort_key) :
  key_eqb a k = true -> key_eqb b k = true -> key_ltb a b = false.
Proof.
  destruct a, b, k; simpl; try discriminate; trivial.
  rewrite !Z.eqb_eq, Z.ltb_ge. lia.
Qed.

Section StableSort.

Context {A : Type}.
Variable key : A -> sort_key.

Lemma insert_sorted_stable (k : sort_key) (x : A) (l : list A) :
  filter (fun y => key_eqb (key y) k) (insert_sorted key x l)
  = filter (fun y => key_eqb (key y) k) (x :: l).
Proof.
  induction l as [|y l IH]; trivial.
  cbn [insert_sorted]. destruct (key_ltb (key y) (key x)) eqn:Hlt; trivial.
  cbn [filter] in *. rewrite IH.
  destruct (key_eqb (key y) k) eqn:Hy, (key_eqb (key x) k) eqn:Hx; trivial.
  now rewrite (key_eqb_not_ltb _ _ _ Hy Hx) in Hlt.
Qed.

Lemma list_sort_stable (k : sort_key) (l : list A) :
  filter (fun y => key_eqb (key y) k) (list_sort key l)
  = filter (fun y => key_eqb (key y) k) l.
Proof.
  induction l as [|x l IH]; trivial.
  cbn [list_sort]. rewrite insert_sorted_stable. cbn [filter].
  now rewrite IH.
Qed.

End StableSort.

(** ** The map *)

(** The values of ["type"] are in lower case. *)
Lemma lower_type_str (t : app_type) : Str.lower (type_str t) = type_str t.
Proof. now destruct t. Qed.

(** One turn of the loop on groups of the shape the map starts with: the
    marker of the place goes last in the group of its mode. *)
Lemma add_place_groups (trains buses tubes trams : list folium_marker)
    (place : transport_place) :
  add_place (groups_with trains buses tubes trams) place
  = groups_with
      (trains ++ map (pin "green" "train" "Train Station")
                   (of_type train_station [place]))
      (buses ++ map (pin "orange" "bus" "Bus Stop")
                  (of_type bus_stop [place]))
      (tubes ++ map (pin "purple" "subway" "Underground Station")
                  (of_type tube_station [place]))
      (trams ++ map (pin "darkred" "tram" "Tram Stop")
                  (of_type tram_stop [place])).
Proof.
  unfold add_place, of_type. rewrite lower_type_str. cbn [filter].
  destruct (tp_type place); cbn; now rewrite !app_nil_r.
Qed.

Lemma of_type_cons (t : app_type) (place : transport_place)
    (members : list transport_place) :
  of_type t (place :: members) = of_type t [place] ++ of_type t members.
Proof.
  unfold of_type. cbn [filter].
  now destruct (app_type_eqb (tp_type place) t).
Qed.

Lemma fold_add_place (members : list transport_place) :
  forall trains buses tubes trams,
  fold_left add_place members (groups_with trains buses tubes trams)
  = groups_with
      (trains ++ map (pin "green" "train" "Train Station")
                   (of_type train_station members))
      (buses ++ map (pin "orange" "bus" "Bus Stop")
                  (of_type bus_stop members))
      (tubes ++ map (pin "purple" "subway" "Underground Station")
                  (of_type tube_station members))
      (trams ++ map (pin "darkred" "tram" "Tram Stop")
                  (of_type tram_stop members)).
Proof.
  induction members as [|place members IH]; intros trains buses tubes trams.
  - cbn [fold_left of_type filter map]. now rewrite !app_nil_r.
  - cbn [fold_left]. rewrite add_place_groups, IH.
    rewrite !(of_type_cons _ place members), !map_app, !app_assoc.
    reflexivity.
Qed.

(** Every member is of one of the four modes. *)
Lemma of_type_partition (members : list transport_place) :
  Permutation members
    (of_type train_station members ++ of_type tube_station members
     ++ of_type bus_stop members ++ of_type tram_stop members).
Proof.
  induction members as [|place members IH]; [constructor |].
  rewrite !(of_type_cons _ place members).
  set (T := of_type train_station members) in *.
  set (U := of_type tube_station members) in *.
  set (B := of_type bus_stop members) in *.
  set (R := of_type tram_stop members) in *.
  transitivity (place :: T ++ U ++ B ++ R); [now constructor |].
  unfold of_type. cbn [filter].
  destruct (tp_type place); cbn [app_type_eqb app].
  - reflexivity.
  - apply Permutation_middle.
  - rewrite (app_assoc U B (place :: R)), (app_assoc U B R).
    rewrite (app_assoc T (U ++ B) (place :: R)), (app_assoc T (U ++ B) R).
    apply Permutation_middle.
  - rewrite (app_assoc T U (place :: _)), (app_assoc T U (B ++ R)).
    apply Permutation_middle.
Qed.

(** ** The details *)

Lemma stations_by_type_perm (members : list transport_place) (t : app_type) :
  Permutation (of_type t members) (stations_by_type members t).
Proof. apply list_sort_perm. Qed.

Lemma has_station_In (members : list transport_place)
    (place : transport_place) :
  In place members -> has_station members (tp_type place) = true.
Proof.
  intros Hin. unfold has_station.
  destruct (stations_by_type members (tp_type place)) eqn:Hs; trivial.
  assert (Hp : In place (of_type (tp_type place) members)).
  { apply filter_In. split; trivial. now destruct (tp_type place). }
  apply (Permutation_in _ (stations_by_type_perm members (tp_type place)))
    in Hp.
  rewrite Hs in Hp. destruct Hp.
Qed.

Section DetailsFacts.

Variable format_5f : float -> string.
Variable members : list transport_place.

Local Abbreviation station_expander := (station_expander format_5f).
Local Abbreviation type_section := (type_section format_5f members).

(** A run of expanders holds expanders only. *)
Lemma expanders_only (stations : list transport_place) :
  filter is_expander (map station_expander stations)
  = map station_expander stations
  /\ filter is_info (map station_expander stations) = []
  /\ subheaders (map station_expander stations) = [].
Proof.
  induction stations as [|s stations (IH1 & IH2 & IH3)]; [now repeat split |].
  cbn [map]. change (station_expander s) with (st_expander
    (PyText.str_opt (tp_name s))
    (match station_expander s with st_expander _ b => b | _ => [] end)).
  cbn [filter is_expander is_info subheaders flat_map app].
  fold (subheaders (map station_expander stations)).
  now rewrite IH1, IH2, IH3.
Qed.

(** One turn of the loop over the modes. *)
Lemma type_section_shown (entry : app_type * string) :
  filter is_expander (fst (type_section entry))
  = map station_expander (stations_by_type members (fst entry))
  /\ filter is_info (fst (type_section entry)) = []
  /\ subheaders (fst (type_section entry))
     = (if has_station members (fst entry) then [snd entry] else [])
  /\ snd (type_section entry) = has_station members (fst entry).
Proof.
  unfold type_section, has_station.
  destruct (stations_by_type members (fst entry)) as [|s stations];
    [now repeat split |].
  destruct (expanders_only (s :: stations)) as (H1 & H2 & H3).
  cbn [fst snd filter is_expander is_info subheaders flat_map app].
  fold (subheaders (map station_expander (s :: stations))).
  now rewrite H1, H2, H3.
Qed.

(** The turns of the loop, one after the other. *)
Lemma type_sections_shown (entries : list (app_type * string)) :
  let turns := map type_section entries in
  filter is_expander (flat_map fst turns)
  = map station_expander
      (flat_map (stations_by_type members) (map fst entries))
  /\ filter is_info (flat_map fst turns) = []
  /\ subheaders (flat_map fst turns)
     = map snd (filter (fun e => has_station members (fst e)) entries)
  /\ existsb snd turns = existsb (has_station members) (map fst entries).
Proof.
  induction entries as [|entry entries (IH1 & IH2 & IH3 & IH4)];
    [now repeat split |].
  destruct (type_section_shown entry) as (H1 & H2 & H3 & H4).
  cbn [map flat_map existsb filter]. unfold subheaders in *.
  rewrite !filter_app, flat_map_app, map_app, H1, H2, H3, H4.
  rewrite IH1, IH2, IH3, IH4.
  repeat split.
  now destruct (has_station members (fst entry)).
Qed.

End DetailsFacts.

(** * The model on the worked inputs *)

Module Worked.

Import Fixture.

Local Open Scope float_scope.

(** X is offered by two queries with different types: the first one, which
    makes it a train station, is kept; the candidate without an identifier
    and the shop are left out; the refused query changes nothing. *)
Example run_manchester :
  fst (run manchester None None)
  = {| error := None; member := manchester_members |}
  /\ requests (snd (run manchester None None)) = queries.
Proof. split; vm_compute; reflexivity. Qed.

Example run_timeout_on_second :
  fst (run timeout_on_second None None)
  = {| error := Some "Read timed out."; member := [x_entry] |}
  /\ requests (snd (run timeout_on_second None None))
     = [QType "train_station"; QType "subway_station"].
Proof. split; vm_compute; reflexivity. Qed.

(** The entry without geometry raises after X was stored. *)
Example run_malformed_first :
  fst (run malformed_first None None)
  = {| error := Some "'geometry'"; member := [x_entry] |}
  /\ requests (snd (run malformed_first None None)) = [QType "train_station"].
Proof. split; vm_compute; reflexivity. Qed.

(** An origin a step east of the meridian has its distance computed. *)
Example origin_off_the_meridian :
  fst (get_google_places_data small_angle Greenwich.places 51.4779 0.0001 1500
         (Some 51.4779) (Some 0.0001))
  = {| error := None; member := [Greenwich.found (Some 1668%Z)] |}.
Proof. vm_compute. reflexivity. Qed.

(** A lookup that finds its postcode: the origin is the resolved point. *)
Example lookup_resolves :
  let '(found, log) :=
    lookup small_angle GeoFixture.resolves manchester GeoFixture.postcode 1500 in
  match found with
  | Found l data =>
      admin_district l = Some "Greater Manchester"
      /\ region l = Some "England"
      /\ map tp_distance (member data) = [Some 1617; Some 1709; Some 976]%Z
      /\ requests log = queries
  | NoLocation _ => False
  end.
Proof. vm_compute. repeat split. Qed.

(** Equal distances keep the order of the members; no distance goes last. *)
Example shown_bus_stops :
  map tp_google_place_id (stations_by_type SortFixture.members bus_stop)
  = ["c"; "e"; "a"; "b"; "d"].
Proof. vm_compute. reflexivity. Qed.

Example round_half_to_even :
  PyFloat.round 2.5 = Ok 2%Z /\ PyFloat.round 3.5 = Ok 4%Z
  /\ PyFloat.round (-2.5) = Ok (-2)%Z /\ PyFloat.round 1616.7 = Ok 1617%Z.
Proof. repeat split; vm_compute; reflexivity. Qed.

End Worked.

Module WorkedPage.

(** The popup of the station of Greenwich, five metres away. *)
Example popup_of_greenwich :
  popup_content (Greenwich.found (Some 5%Z))
  = "
                <div style='min-width: 200px'>
                    <b>Greenwich</b><br>
                    <i>Greenwich High Road, London</i><br>
                    <b>Type:</b> Train Station<br>
                    <b>Distance:</b> 5m<br>
                    <small><i>Found by: {'type': 'train_station'}</i></small><br>
                    <small><i>Google Types: ['train_station', 'transit_station']</i></small>
                </div>
            ".
Proof. vm_compute. reflexivity. Qed.

(** The popup names an underground station after its key, the tooltip after
    the configuration. *)
Example type_in_the_popup :
  map (fun t => PyText.title (PyText.replace "_" " " (type_str t)))
    [train_station; tube_station; tram_stop; bus_stop]
  = ["Train Station"; "Tube Station"; "Tram Stop"; "Bus Stop"].
Proof. vm_compute. reflexivity. Qed.

(** A stop without name, address and distance in the details. *)
Example expander_of_a_bare_stop :
  station_expander PageFixture.no_digits
    {| tp_name := None; tp_latitude := 53.48%float;
       tp_longitude := (-2.24)%float; tp_type := bus_stop;
       tp_description := None; tp_google_place_id := "b";
       tp_distance := None; tp_google_types := [];
       tp_debug_query_source := QKeyword "bus stop" |}
  = st_expander "None"
      [ st_write "**Address/Vicinity:** None";
        st_write "**Distance:** N/A";
        st_write "**Location:** #, #";
        st_caption "Found by query: bus stop";
        st_caption "Google Types: []";
        st_markdown
          "[View on Google Maps](https://www.google.com/maps/search/?api=1&query=Google&query_place_id=b)" ].
Proof. vm_compute. reflexivity. Qed.

(** The headings and the labels of the details, in order. *)
Example details_of_six_members :
  map (fun e => match e with
                | st_subheader s => s
                | st_expander label _ => label
                | _ => "other"
                end)
    (details_tab PageFixture.no_digits PageFixture.no_digits 1.5%float
       PageFixture.data)
  = ["Train Stations"; "Greenwich"; "Bus Stops"; "c"; "e"; "a"; "b"; "d"].
Proof. vm_compute. reflexivity. Qed.

(** Without members the error takes the place of the tabs. *)
Example page_of_a_failed_first_query :
  show_transport_data PageFixture.no_digits PageFixture.no_digits ""
    1.5%float "M1 1RG" PageFixture.here
    (fst (Fixture.run Fixture.timeout_on_first None None))
  = [ st_error "Error fetching transport data: Read timed out." ].
Proof. vm_compute. reflexivity. Qed.

End WorkedPage.

(** * The properties of the specification *)

Import Fixture.

(** ** Deduplication: the first classification of an identifier wins *)

(** C1.  In every result of the aggregator, with or without an error, no two
    members share a provider identifier, and each member, mode included, was
    built from the earliest candidate with its identifier that was given a
    mode, in the order of the seven queries and of each response; every other
    occurrence of the identifier is left out, whatever mode it would get. *)
Theorem C1_first_classification_wins :
  forall (M : mathlib) (fetch : params -> result places_payload)
         (lat lon : float) (radius : Z) (origin_lat origin_lon : option float),
  let r := fst (get_google_places_data M fetch lat lon radius
                  origin_lat origin_lon) in
  NoDup (map tp_google_place_id (member r))
  /\ forall e, In e (member r) ->
       earliest_classified M fetch lat lon radius origin_lat origin_lon e.
Proof.
  intros M fetch lat lon radius olat olon r.
  destruct (get_google_places_data M fetch lat lon radius olat olon)
    as [r' log] eqn:Hrun.
  subst r. simpl.
  destruct (aggregated_entries _ _ _ _ _ _ _ _ _ Hrun) as [Hnd Hent].
  split; trivial.
  intros e Hin. destruct (Hent e Hin) as (q & pl & l1 & l2 & Hc & Hb & Hfirst).
  unfold candidates in Hc.
  apply flat_map_split in Hc
    as (qa & q0 & qb & m1 & m2 & Hq & Hoff & Hl1).
  apply map_eq_app in Hoff as (before & rest & Hoff & Hm1 & Hrest).
  destruct rest as [|pl0 after]; [discriminate |].
  simpl in Hrest. injection Hrest as Hq0 Hpl0 Hm2. subst q0 pl0.
  exists (List.length qa), q, pl, before, after.
  split; [| split; [exact Hoff | split; [exact Hb | split]]].
  - rewrite Hq, nth_error_app2, Nat.sub_diag; trivial.
  - intros pl' Hin'. apply Hfirst with q. rewrite Hl1. apply in_or_app. right.
    rewrite <- Hm1. now apply in_map.
  - intros j q' pl' Hj Hnth Hin'. apply Hfirst with q'.
    rewrite Hl1. apply in_or_app. left. apply in_flat_map.
    exists q'. split; [|now apply in_map].
    rewrite Hq, nth_error_app1 in Hnth by trivial.
    now apply nth_error_In in Hnth.
Qed.

(** C1 at the run of [manchester]: X is kept as the train_station query
    returned it. *)
Lemma C1_witness :
  In x_entry (member (fst (run manchester None None)))
  /\ earliest_classified small_angle manchester lat0 lon0 1500%Z None None x_entry.
Proof.
  assert (H : In x_entry (member (fst (run manchester None None))))
    by (vm_compute; auto).
  split; [exact H |].
  exact (proj2 (C1_first_classification_wins small_angle manchester
                  lat0 lon0 1500%Z None None) x_entry H).
Defined.

(** ** The precedence of the classification rules *)

(** C2.  The mode of a candidate is the mode of the first rule that holds in
    the fixed list of six (metrolink in the name; subway_station;
    light_rail_station; tram in the name without train_station;
    train_station; bus_station or bus_stop), names compared without regard to
    case: the code's chain computes it, every member of a result carries it,
    and a candidate no rule holds for leaves the dictionary as it was.  A
    name containing "Metrolink" gives tram_stop whatever the tags are, with
    train_station among them or not. *)
Theorem C2_classification_precedence :
  (forall pl : place,
     place_mode pl
     = Spec.mode_of (get_default (p_name pl) "") (get_default (p_types pl) []))
  /\ (forall M fetch lat lon radius origin_lat origin_lon e,
        In e (member (fst (get_google_places_data M fetch lat lon radius
                             origin_lat origin_lon))) ->
        Spec.mode_of (get_default (tp_name e) "") (tp_google_types e)
        = Some (tp_type e))
  /\ (forall M lat lon origin_lat origin_lon q d pl,
        Spec.mode_of (get_default (p_name pl) "") (get_default (p_types pl) [])
        = None ->
        process_place M lat lon origin_lat origin_lon q d pl = Ok d)
  /\ (forall pre post tags,
        Spec.mode_of (pre ++ "Metrolink" ++ post) tags = Some tram_stop
        /\ classify (Str.lower (pre ++ "Metrolink" ++ post)) tags
           = Some tram_stop).
Proof.
  split; [|split; [|split]].
  - intros pl. apply classify_first_match.
  - intros M fetch lat lon radius olat olon e Hin.
    destruct (get_google_places_data M fetch lat lon radius olat olon)
      as [r log] eqn:Hrun.
    destruct (aggregated_entries _ _ _ _ _ _ _ _ _ Hrun) as [_ Hent].
    destruct (Hent e Hin) as (q & pl & _ & _ & _ & Hb & _).
    destruct Hb as (_ & _ & Hmode & Hname & Htypes & _).
    rewrite Hname, Htypes, <- classify_first_match. exact Hmode.
  - intros M lat lon olat olon q d pl H.
    apply process_place_unclassified.
    unfold place_mode. now rewrite classify_first_match.
  - intros pre post tags. rewrite <- classify_first_match.
    split; apply classify_metrolink.
Qed.

(** C2 at the run of [manchester] and at the Metrolink stop of Piccadilly. *)
Lemma C2_witness :
  In x_entry (member (fst (run manchester None None)))
  /\ Spec.mode_of (get_default (tp_name x_entry) "") (tp_google_types x_entry)
     = Some (tp_type x_entry)
  /\ Spec.mode_of ("Manchester " ++ "Metrolink" ++ " - Piccadilly")
       ["light_rail_station"; "train_station"] = Some tram_stop.
Proof.
  assert (H : In x_entry (member (fst (run manchester None None))))
    by (vm_compute; auto).
  split; [exact H |]. split.
  - exact (proj1 (proj2 C2_classification_precedence) small_angle manchester
             lat0 lon0 1500%Z None None x_entry H).
  - exact (proj1 (proj2 (proj2 (proj2 C2_classification_precedence))
                    "Manchester " " - Piccadilly"
                    ["light_rail_station"; "train_station"])).
Defined.

(** ** Partial failure *)

(** C3.  Let the queries before [q] have run without an exception.  If the
    request of [q] fails at the transport level (it raises, or its body has
    no status), the result is the members gathered by the queries before [q],
    no more and no fewer, with the error set, and the request of [q] is the
    last one sent.  More generally, whatever exception leaves the iteration
    of [q], the run returns what it had when the exception came: the members
    gathered before [q], those of [q] stored before the exception, the
    error, and no request after that of [q].  A failure of the first query
    at the transport level gives no member and the error. *)
Theorem C3_failure_stops_the_run :
  forall (M : mathlib) (fetch : params -> result places_payload)
         (lat lon : float) (radius : Z) (origin_lat origin_lon : option float),
  let run := run_queries M fetch lat lon radius origin_lat origin_lon in
  let sent := fun q => PlacesGet (params_of lat lon radius q) in
  (forall before q after r0 log0 e,
     queries = before ++ q :: after ->
     run before [] [] = (r0, log0) -> error r0 = None ->
     transport_failure (fetch (params_of lat lon radius q)) e ->
     get_google_places_data M fetch lat lon radius origin_lat origin_lon
     = ({| error := Some (str_exn e); member := member r0 |},
        log0 ++ [sent q; StError (error_text q e)])
     /\ requests (log0 ++ [sent q; StError (error_text q e)]) = before ++ [q])
  /\ (forall before q after r0 log0 r1 log1,
        queries = before ++ q :: after ->
        run before [] [] = (r0, log0) -> error r0 = None ->
        run (before ++ [q]) [] [] = (r1, log1) -> error r1 <> None ->
        get_google_places_data M fetch lat lon radius origin_lat origin_lon
        = (r1, log1)
        /\ requests log1 = before ++ [q]
        /\ exists added, member r1 = member r0 ++ added)
  /\ (forall e,
        transport_failure
          (fetch (params_of lat lon radius (QType "train_station"))) e ->
        get_google_places_data M fetch lat lon radius origin_lat origin_lon
        = ({| error := Some (str_exn e); member := [] |},
           [sent (QType "train_station");
            StError (error_text (QType "train_station") e)])).
Proof.
  intros M fetch lat lon radius olat olon run sent. subst run sent.
  unfold get_google_places_data. split; [|split].
  - intros before q after r0 log0 e Hq Hrun Herr Hfail.
    destruct (run_without_error _ _ _ _ _ _ _ _ _ _ Hrun Herr)
      as (d0 & Hl & -> & Hreq).
    rewrite Hq, run_loop_state, loop_state_app, Hl. simpl.
    rewrite (try_query_transport_failure _ _ _ _ _ _ _ _ _ _ Hfail). simpl.
    split; trivial.
    now rewrite requests_app, Hreq.
  - intros before q after r0 log0 r1 log1 Hq Hrun Herr Hrun1 Herr1.
    destruct (run_without_error _ _ _ _ _ _ _ _ _ _ Hrun Herr)
      as (d0 & Hl & -> & Hreq).
    rewrite run_loop_state, loop_state_app, Hl in Hrun1. simpl in Hrun1.
    rewrite Hq, run_loop_state, loop_state_app, Hl. simpl.
    destruct (try_query M fetch lat lon radius olat olon q d0)
      as [[d1 evs] [e|]] eqn:Ht; simpl in *.
    + injection Hrun1 as <- <-. split; trivial.
      pose proof (try_query_requests _ _ _ _ _ _ _ _ _ _ _ _ Ht) as Hev.
      destruct (try_query_extends _ _ _ _ _ _ _ _ _ _ _ _ Ht) as [added ->].
      split.
      * rewrite !requests_app, Hreq, Hev. reflexivity.
      * exists (dict_values added). unfold dict_values. apply map_app.
    + injection Hrun1 as <- <-. now elim Herr1.
  - intros e Hfail. simpl.
    now rewrite (try_query_transport_failure _ _ _ _ _ _ _ _ _ _ Hfail).
Qed.

(** C3 at a timeout of the second query, and of the first. *)
Lemma C3_witness :
  let sent := PlacesGet (params_of lat0 lon0 1500%Z (QType "train_station")) in
  let failed := PlacesGet (params_of lat0 lon0 1500%Z (QType "subway_station")) in
  run_queries small_angle timeout_on_second lat0 lon0 1500%Z None None
    [QType "train_station"] [] []
  = ({| error := None; member := [x_entry] |}, [sent])
  /\ transport_failure
       (timeout_on_second (params_of lat0 lon0 1500%Z (QType "subway_station")))
       (RequestException "Read timed out.")
  /\ get_google_places_data small_angle timeout_on_second lat0 lon0 1500%Z
       None None
     = ({| error := Some "Read timed out."; member := [x_entry] |},
        [sent; failed;
         StError "Request failed for places query {'type': 'subway_station'}: Read timed out."])
  /\ get_google_places_data small_angle timeout_on_first lat0 lon0 1500%Z
       None None
     = ({| error := Some "Read timed out."; member := [] |},
        [sent;
         StError "Request failed for places query {'type': 'train_station'}: Read timed out."]).
Proof.
  intros sent failed.
  assert (H0 : run_queries small_angle timeout_on_second lat0 lon0 1500%Z
                 None None [QType "train_station"] [] []
               = ({| error := None; member := [x_entry] |}, [sent]))
    by (vm_compute; reflexivity).
  assert (Hf : transport_failure
                 (timeout_on_second
                    (params_of lat0 lon0 1500%Z (QType "subway_station")))
                 (RequestException "Read timed out."))
    by (left; reflexivity).
  split; [exact H0 |]. split; [exact Hf |]. split.
  - exact (proj1 (proj1 (C3_failure_stops_the_run small_angle timeout_on_second
                           lat0 lon0 1500%Z None None)
                    [QType "train_station"] (QType "subway_station")
                    (skipn 2 queries) _ _ _ eq_refl H0 eq_refl Hf)).
  - exact (proj2 (proj2 (C3_failure_stops_the_run small_angle timeout_on_first
                           lat0 lon0 1500%Z None None))
             (RequestException "Read timed out.") (or_introl eq_refl)).
Defined.

(** ** The distance of a member *)

(** C4, at an origin on the prime meridian.  The origin (51.4779, 0.0) is
    given, and the one station found is stored without a distance, whatever
    the functions of the [math] module compute: the test of line 169 takes
    the longitude 0.0 for a missing one. *)
Theorem C4_origin_on_the_meridian_has_no_distance :
  forall M : mathlib,
  fst (get_google_places_data M Greenwich.places 51.4779 0 1500
         (Some 51.4779%float) (Some 0%float))
  = {| error := None; member := [Greenwich.found None] |}.
Proof. intros M. vm_compute. reflexivity. Qed.

(** ** The geocode resolver *)

(** C5.  When the geocoding service answers a postcode with the status
    ZERO_RESULTS, the resolver returns the error result whose message is
    "Postcode not found by Google: " and the postcode, which contains
    "not found"; it returns it as a value and shows nothing.  The lookup then
    ends without a location and sends no request to the places service. *)
Theorem C5_zero_results_is_not_found :
  forall (M : mathlib) (geocode_fetch : string -> result geocode_payload)
         (places_fetch : params -> result places_payload)
         (pc : string) (radius_m : Z) (data : geocode_payload),
  geocode_fetch pc = Ok data ->
  gp_status data = Some "ZERO_RESULTS" ->
  let msg := ("Postcode not found by Google: " ++ pc)%string in
  get_google_geocode_data geocode_fetch pc = (GeoError msg, [GeocodeGet pc])
  /\ Str.str_in "not found" msg = true
  /\ fst (lookup M geocode_fetch places_fetch pc radius_m) = NoLocation msg
  /\ requests (snd (lookup M geocode_fetch places_fetch pc radius_m)) = [].
Proof.
  intros M gf pf pc radius_m data Hf Hs msg.
  assert (Hg : get_google_geocode_data gf pc = (GeoError msg, [GeocodeGet pc])).
  { unfold get_google_geocode_data, geocode_body. rewrite Hf. simpl.
    now rewrite Hs. }
  split; [exact Hg |]. split; [reflexivity |].
  unfold lookup. rewrite Hg. now split.
Qed.

(** C5 at a geocoding service that answers ZERO_RESULTS. *)
Lemma C5_witness :
  GeoFixture.zero_results GeoFixture.postcode
  = Ok {| gp_status := Some "ZERO_RESULTS"; gp_results := Some [];
          gp_error_message := None |}
  /\ get_google_geocode_data GeoFixture.zero_results GeoFixture.postcode
     = (GeoError "Postcode not found by Google: M1 1RG",
        [GeocodeGet GeoFixture.postcode])
  /\ Str.str_in "not found" "Postcode not found by Google: M1 1RG" = true
  /\ fst (lookup small_angle GeoFixture.zero_results manchester
            GeoFixture.postcode 1500)
     = NoLocation "Postcode not found by Google: M1 1RG"
  /\ requests (snd (lookup small_angle GeoFixture.zero_results manchester
                      GeoFixture.postcode 1500)) = [].
Proof.
  split; [reflexivity |].
  exact (C5_zero_results_is_not_found small_angle GeoFixture.zero_results
           manchester GeoFixture.postcode 1500%Z _ eq_refl eq_refl).
Defined.

(** ** A query refused by the provider *)

(** C6.  When the answer to the query [q] carries a status that is neither
    OK nor ZERO_RESULTS, the iteration of [q] only shows a warning: the loop
    goes on with the remaining queries from the dictionary it had, so [q]
    adds no member and sets no error.  In the run of the seven queries: after
    the queries before [q] ran without an exception, the members and the
    absent error are the same after [q] as before it, and the queries after
    [q] are sent in their order, all of them unless one of them fails, and at
    least the next one. *)
Theorem C6_other_status_is_skipped :
  forall (M : mathlib) (fetch : params -> result places_payload)
         (lat lon : float) (radius : Z) (origin_lat origin_lon : option float)
         (q : query) (data : places_payload) (status : string),
  fetch (params_of lat lon radius q) = Ok data ->
  pp_status data = Some status ->
  status <> "OK" -> status <> "ZERO_RESULTS" ->
  let run := run_queries M fetch lat lon radius origin_lat origin_lon in
  let shown := [PlacesGet (params_of lat lon radius q);
                StWarning (warning_text q status data)] in
  (forall rest d log, run (q :: rest) d log = run rest d (log ++ shown))
  /\ (forall before after r0 log0,
        queries = before ++ q :: after ->
        run before [] [] = (r0, log0) -> error r0 = None ->
        run (before ++ [q]) [] [] = (r0, log0 ++ shown)
        /\ forall r log,
             get_google_places_data M fetch lat lon radius
               origin_lat origin_lon = (r, log) ->
             exists tail rest,
               after = tail ++ rest
               /\ requests log = before ++ q :: tail
               /\ (error r = None -> rest = [])
               /\ (after <> [] -> tail <> [])).
Proof.
  intros M fetch lat lon radius olat olon q data status Hf Hs Hok Hzero run shown.
  subst run shown.
  pose proof (fun d => try_query_other_status M fetch lat lon radius olat olon
                         q d data status Hf Hs Hok Hzero) as Hstep.
  split.
  - intros rest d log. simpl. now rewrite Hstep.
  - intros before after r0 log0 Hq Hrun Herr.
    destruct (run_without_error _ _ _ _ _ _ _ _ _ _ Hrun Herr)
      as (d0 & Hl & -> & Hreq).
    split.
    + rewrite run_loop_state, loop_state_app, Hl. simpl. now rewrite Hstep.
    + intros r log. unfold get_google_places_data.
      rewrite Hq, run_loop_state, loop_state_app, Hl. simpl. rewrite Hstep.
      destruct (loop_state M fetch lat lon radius olat olon after d0 _)
        as [[d2 l2] err] eqn:Hl2.
      apply loop_state_requests in Hl2.
      rewrite requests_app, Hreq in Hl2. simpl in Hl2.
      destruct err as [e|]; simpl; intros [= <- <-]; simpl.
      * destruct Hl2 as (done & q' & rest & -> & Hr).
        exists (done ++ [q']), rest. rewrite Hr, <- !app_assoc. simpl.
        repeat split.
        -- discriminate.
        -- intros _. now destruct done.
      * exists after, []. rewrite Hl2, app_nil_r, <- app_assoc. simpl.
        now repeat split.
Qed.

(** C6 at the bus_station query of [manchester], refused with
    OVER_QUERY_LIMIT. *)
Lemma C6_witness :
  let q := QType "bus_station" in
  let shown := [PlacesGet (params_of lat0 lon0 1500 q);
                StWarning "Google Places API query ({'type': 'bus_station'}) returned status: OVER_QUERY_LIMIT - "] in
  manchester (params_of lat0 lon0 1500 q) = status_only "OVER_QUERY_LIMIT"
  /\ "OVER_QUERY_LIMIT" <> "OK"
  /\ "OVER_QUERY_LIMIT" <> "ZERO_RESULTS"
  /\ forall rest d log,
       run_queries small_angle manchester lat0 lon0 1500 None None
         (q :: rest) d log
       = run_queries small_angle manchester lat0 lon0 1500 None None
           rest d (log ++ shown).
Proof.
  intros q shown.
  assert (Hok : "OVER_QUERY_LIMIT" <> "OK") by discriminate.
  assert (Hzero : "OVER_QUERY_LIMIT" <> "ZERO_RESULTS") by discriminate.
  split; [reflexivity |]. split; [exact Hok |]. split; [exact Hzero |].
  exact (proj1 (C6_other_status_is_skipped small_angle manchester
                  lat0 lon0 1500%Z None None q _ "OVER_QUERY_LIMIT"
                  eq_refl eq_refl Hok Hzero)).
Defined.

(** ** The order of the station details *)

(** C7.  The list shown under a mode holds the members of that mode, each as
    often as in the result, and is in ascending order of distance: of two
    places with a distance the one shown first has the smaller or an equal
    one, and a place without a distance is shown after every place of the
    list that has one, whatever the distances are. *)
Theorem C7_sorted_by_distance_unset_last :
  forall (members : list transport_place) (pt_key : app_type),
  let shown := stations_by_type members pt_key in
  Permutation (filter (fun pl => app_type_eqb (tp_type pl) pt_key) members) shown
  /\ (forall i j x y a b,
        i < j -> nth_error shown i = Some x -> nth_error shown j = Some y ->
        tp_distance x = Some a -> tp_distance y = Some b -> (a <= b)%Z)
  /\ (forall i j x y,
        nth_error shown i = Some x -> nth_error shown j = Some y ->
        tp_distance x = None -> tp_distance y <> None -> j < i).
Proof.
  intros members pt_key shown.
  pose proof (list_sort_sorted distance_key
                (filter (fun pl => app_type_eqb (tp_type pl) pt_key) members))
    as Hs.
  fold (stations_by_type members pt_key) in Hs. fold shown in Hs.
  split; [apply list_sort_perm |]. split.
  - intros i j x y a b Hij Hi Hj Hx Hy.
    pose proof (sorted_nth _ _ Hs i j x y Hij Hi Hj) as H.
    unfold key_le, distance_key in H. rewrite Hx, Hy in H. simpl in H.
    apply Z.ltb_ge in H. lia.
  - intros i j x y Hi Hj Hx Hy.
    destruct (Nat.lt_trichotomy i j) as [Hij | [-> | Hji]]; trivial.
    + pose proof (sorted_nth _ _ Hs i j x y Hij Hi Hj) as H.
      unfold key_le, distance_key in H. rewrite Hx in H.
      destruct (tp_distance y); [discriminate | congruence].
    + congruence.
Qed.

(** C7 at the bus stops of [SortFixture.members]. *)
Lemma C7_witness :
  let shown := stations_by_type SortFixture.members bus_stop in
  nth_error shown 1 = Some (SortFixture.stop "e" (Some 120%Z))
  /\ nth_error shown 2 = Some (SortFixture.stop "a" (Some 300%Z))
  /\ nth_error shown 3 = Some (SortFixture.stop "b" None)
  /\ (120 <= 300)%Z
  /\ 2 < 3.
Proof.
  intros shown.
  assert (H1 : nth_error shown 1 = Some (SortFixture.stop "e" (Some 120%Z)))
    by (vm_compute; reflexivity).
  assert (H2 : nth_error shown 2 = Some (SortFixture.stop "a" (Some 300%Z)))
    by (vm_compute; reflexivity).
  assert (H3 : nth_error shown 3 = Some (SortFixture.stop "b" None))
    by (vm_compute; reflexivity).
  split; [exact H1 |]. split; [exact H2 |]. split; [exact H3 |]. split.
  - exact (proj1 (proj2 (C7_sorted_by_distance_unset_last SortFixture.members
                           bus_stop))
             1 2 _ _ 120%Z 300%Z (le_n 2) H1 H2 eq_refl eq_refl).
  - refine (proj2 (proj2 (C7_sorted_by_distance_unset_last SortFixture.members
                            bus_stop))
              3 2 _ _ H3 H2 eq_refl _).
    discriminate.
Defined.

(** ** The distance function *)

(** C8.  With a [math] module that keeps the laws above, the distance from a
    point to itself is 0 for every latitude between -90 and 90 and every
    longitude between -180 and 180, and the distance is symmetric for all
    inputs: both calls return the same integer, or both raise. *)
Theorem C8_distance_zero_and_symmetric :
  forall M : mathlib, math_laws M ->
  (forall x y : float,
     PyFloat.between (-90) x 90 = true ->
     PyFloat.between (-180) y 180 = true ->
     haversine M x y x y = Ok 0%Z)
  /\ (forall a b c d : float,
        value_of (haversine M a b c d) = value_of (haversine M c d a b)).
Proof.
  intros M laws. split.
  - apply haversine_same_point, laws.
  - apply haversine_symmetric, laws.
Qed.

(** C8 at the centre of the searches and at Piccadilly. *)
Lemma C8_witness :
  PyFloat.between (-90) lat0 90 = true
  /\ PyFloat.between (-180) lon0 180 = true
  /\ haversine small_angle lat0 lon0 lat0 lon0 = Ok 0%Z
  /\ value_of (haversine small_angle lat0 lon0 53.4774 (-2.2309))
     = value_of (haversine small_angle 53.4774 (-2.2309) lat0 lon0).
Proof.
  split; [reflexivity |]. split; [reflexivity |]. split.
  - exact (proj1 (C8_distance_zero_and_symmetric small_angle small_angle_laws)
             lat0 lon0 eq_refl eq_refl).
  - exact (proj2 (C8_distance_zero_and_symmetric small_angle small_angle_laws)
             lat0 lon0 53.4774%float (-2.2309)%float).
Defined.

(** ** An empty list of results under the status OK *)

(** C9.  When the geocoding service answers with the status OK and an empty
    list of results, the resolver returns the error result of the last
    branch, whose message is "Geocoding API returned status: OK": it is a
    value, not an exception, it is not a location, and it is not the
    not-found message. *)
Theorem C9_ok_with_no_results :
  forall (geocode_fetch : string -> result geocode_payload)
         (pc : string) (data : geocode_payload),
  geocode_fetch pc = Ok data ->
  gp_status data = Some "OK" ->
  gp_results data = Some [] ->
  let msg := "Geocoding API returned status: OK" in
  fst (get_google_geocode_data geocode_fetch pc) = GeoError msg
  /\ Str.str_in "not found" msg = false
  /\ msg <> ("Postcode not found by Google: " ++ pc)%string
  /\ exists shown,
       snd (get_google_geocode_data geocode_fetch pc)
       = [GeocodeGet pc; StError shown].
Proof.
  intros gf pc data Hf Hs Hr msg.
  unfold get_google_geocode_data, geocode_body. rewrite Hf. simpl.
  rewrite Hs. simpl. rewrite Hr. simpl.
  split; [reflexivity |]. split; [reflexivity |]. split; [discriminate |].
  eexists. reflexivity.
Qed.

(** C9 at a geocoding service that answers OK with no result. *)
Lemma C9_witness :
  GeoFixture.ok_but_empty GeoFixture.postcode
  = Ok {| gp_status := Some "OK"; gp_results := Some [];
          gp_error_message := None |}
  /\ fst (get_google_geocode_data GeoFixture.ok_but_empty GeoFixture.postcode)
     = GeoError "Geocoding API returned status: OK".
Proof.
  split; [reflexivity |].
  exact (proj1 (C9_ok_with_no_results GeoFixture.ok_but_empty
                  GeoFixture.postcode _ eq_refl eq_refl eq_refl)).
Defined.

(** ** The mode does not depend on the query *)

(** C10.  The loop body treats a candidate the same way under any two
    queries: from the same dictionary it stores it with the same mode, or
    leaves it out, or raises the same exception.  The mode stored is the one
    the chain computes from the name and the types, so two candidates with
    the same name and types get the same one.  A candidate of the "bus stop"
    keyword query whose name contains neither "metrolink" nor "tram", in any
    case of the letters, and whose types hold none of subway_station,
    light_rail_station, train_station, bus_station and bus_stop is left
    out. *)
Theorem C10_mode_independent_of_query :
  forall (M : mathlib) (lat lon : float) (origin_lat origin_lon : option float),
  let body := process_place M lat lon origin_lat origin_lon in
  (forall q1 q2 d pl,
     mode_outcome (body q1 d pl) = mode_outcome (body q2 d pl))
  /\ (forall q d d' pl,
        body q d pl = Ok d' ->
        d' = d
        \/ exists e, d' = d ++ [(tp_google_place_id e, e)]
                     /\ place_mode pl = Some (tp_type e))
  /\ (forall pl1 pl2,
        p_name pl1 = p_name pl2 -> p_types pl1 = p_types pl2 ->
        place_mode pl1 = place_mode pl2)
  /\ (forall d pl,
        let name := get_default (p_name pl) "" in
        let types := get_default (p_types pl) [] in
        Str.contains_ci "metrolink" name = false ->
        Str.contains_ci "tram" name = false ->
        (forall t, In t ["subway_station"; "light_rail_station";
                         "train_station"; "bus_station"; "bus_stop"] ->
                   Str.list_in t types = false) ->
        body bus_stop_query d pl = Ok d).
Proof.
  intros M lat lon olat olon body. subst body. split; [|split; [|split]].
  - intros q1 q2 d pl. unfold process_place.
    destruct (p_place_id pl) as [id|]; trivial.
    destruct (negb (Str.truthy id)); trivial.
    destruct (classify _ _) as [t|]; trivial.
    destruct (negb (dict_mem id d)); trivial.
    destruct (subscript "geometry" (p_geometry pl)) as [g|]; trivial. simpl.
    destruct (subscript "location" (gm_location g)) as [l|]; trivial. simpl.
    destruct (subscript "lat" (ll_lat l)) as [la|]; trivial. simpl.
    destruct (subscript "lng" (ll_lng l)) as [lo|]; trivial. simpl.
    destruct (distance_val M lat lon olat olon la lo) as [dv|]; trivial. simpl.
    f_equal. now apply modes_dict_set.
  - intros q d d' pl H.
    destruct (process_place_ok _ _ _ _ _ _ _ _ _ H)
      as [[-> _] | (e & Hb & _ & ->)]; [now left | right].
    exists e. split; trivial. apply Hb.
  - intros pl1 pl2 Hn Ht. unfold place_mode. now rewrite Hn, Ht.
  - intros d pl name types Hm Htram Htypes.
    apply process_place_unclassified. unfold place_mode.
    rewrite classify_first_match. fold name types.
    unfold Spec.mode_of, Spec.rules, Spec.first_match.
    rewrite Hm, Htram, !Htypes; simpl; tauto.
Qed.

(** C10 at the shop the bus stop query returns. *)
Lemma C10_witness :
  Str.contains_ci "metrolink" "Corner Shop" = false
  /\ Str.contains_ci "tram" "Corner Shop" = false
  /\ process_place small_angle lat0 lon0 None None bus_stop_query
       [("X", x_entry)] corner_shop
     = Ok [("X", x_entry)]
  /\ mode_outcome (process_place small_angle lat0 lon0 None None
                     (QType "light_rail_station") [] piccadilly_tram)
     = mode_outcome (process_place small_angle lat0 lon0 None None
                       bus_stop_query [] piccadilly_tram).
Proof.
  split; [reflexivity |]. split; [reflexivity |]. split.
  - refine (proj2 (proj2 (proj2 (C10_mode_independent_of_query small_angle
                                   lat0 lon0 None None)))
              [("X", x_entry)] corner_shop eq_refl eq_refl _).
    intros t Hin. simpl in Hin.
    repeat (destruct Hin as [<- | Hin]; [reflexivity |]). destruct Hin.
  - exact (proj1 (C10_mode_independent_of_query small_angle lat0 lon0
                    None None) _ _ [] piccadilly_tram).
Defined.

(** * Further properties of the code *)

(** ** The requests of a run *)

(** X1.  Whatever the places service answers, a run sends between one and
    seven requests: those of the first queries of the fixed list, in order,
    each at the centre and with the radius of the call; when the result has
    no error, all seven were sent. *)
Theorem requests_are_a_prefix_of_the_queries :
  forall (M : mathlib) (fetch : params -> result places_payload)
         (lat lon : float) (radius : Z) (origin_lat origin_lon : option float),
  let run := get_google_places_data M fetch lat lon radius
               origin_lat origin_lon in
  exists k,
    1 <= k <= 7
    /\ places_requests (snd run)
       = map (params_of lat lon radius) (firstn k queries)
    /\ (error (fst run) = None -> k = 7).
Proof.
  intros M fetch lat lon radius olat olon run. subst run.
  unfold get_google_places_data. rewrite run_loop_state.
  destruct (loop_state M fetch lat lon radius olat olon queries [] [])
    as [[d log] err] eqn:Hl.
  destruct (loop_state_sent _ _ _ _ _ _ _ _ _ _ _ _ _ Hl) as (k & Hk & Hs & He).
  exists k. simpl in Hk, Hs. destruct err as [e|]; simpl in *.
  - repeat split; trivial; try lia. discriminate.
  - repeat split; trivial; lia.
Qed.

(** ** Candidates without an identifier *)

(** X2.  No member of a result has an empty identifier, and a candidate
    whose identifier is missing or empty leaves the dictionary as it is
    whatever else it holds or lacks. *)
Theorem members_have_identifiers :
  forall (M : mathlib) (fetch : params -> result places_payload)
         (lat lon : float) (radius : Z) (origin_lat origin_lon : option float),
  (forall e,
     In e (member (fst (get_google_places_data M fetch lat lon radius
                          origin_lat origin_lon))) ->
     tp_google_place_id e <> "")
  /\ (forall q d pl,
        p_place_id pl = None \/ p_place_id pl = Some "" ->
        process_place M lat lon origin_lat origin_lon q d pl = Ok d).
Proof.
  intros M fetch lat lon radius olat olon. split.
  - intros e Hin.
    destruct (get_google_places_data M fetch lat lon radius olat olon)
      as [r log] eqn:Hrun.
    destruct (aggregated_entries _ _ _ _ _ _ _ _ _ Hrun) as [_ Hent].
    destruct (Hent e Hin) as (q & pl & _ & _ & _ & Hb & _).
    destruct Hb as (_ & Htr & _). intros E. now rewrite E in Htr.
  - intros q d pl [H | H]; unfold process_place; now rewrite H.
Qed.

(** X2 at the run of [manchester], where one candidate has no identifier. *)
Lemma members_have_identifiers_witness :
  In x_entry (member (fst (run manchester None None)))
  /\ tp_google_place_id x_entry <> ""
  /\ process_place small_angle lat0 lon0 None None
       (QType "light_rail_station") [("X", x_entry)] no_identifier
     = Ok [("X", x_entry)].
Proof.
  assert (H : In x_entry (member (fst (run manchester None None))))
    by (vm_compute; auto).
  split; [exact H |]. split.
  - exact (proj1 (members_have_identifiers small_angle manchester lat0 lon0
                    1500%Z None None) x_entry H).
  - exact (proj2 (members_have_identifiers small_angle manchester lat0 lon0
                    1500%Z None None) _ _ no_identifier (or_introl eq_refl)).
Defined.

(** ** A candidate without geometry *)

(** X3.  The geometry of a candidate is read only to store it: a candidate
    without geometry raises KeyError('geometry') when it has an identifier
    and a mode and the identifier is new, and is passed over without an
    exception when its identifier is already in the dictionary, or when it
    has no identifier or no mode. *)
Theorem geometry_is_read_only_to_store :
  forall (M : mathlib) (lat lon : float) (origin_lat origin_lon : option float)
         (q : query) (d : places_dict) (pl : place),
  p_geometry pl = None ->
  (forall id, storable pl id -> dict_mem id d = false ->
     process_place M lat lon origin_lat origin_lon q d pl
     = Raise (KeyError "geometry"))
  /\ ((forall id, storable pl id -> dict_mem id d = true) ->
      process_place M lat lon origin_lat origin_lon q d pl = Ok d).
Proof.
  intros M lat lon olat olon q d pl Hg. unfold storable, process_place.
  fold (place_mode pl). split.
  - intros id (Hid & Htr & Hm) Hmem. rewrite Hid, Htr. simpl.
    destruct (place_mode pl); [|congruence].
    now rewrite Hmem, Hg.
  - intros H. destruct (p_place_id pl) as [id|]; trivial.
    destruct (Str.truthy id) eqn:Htr; simpl; trivial.
    destruct (place_mode pl) as [t|] eqn:Hm; trivial.
    rewrite (H id); trivial. repeat split; trivial. congruence.
Qed.

(** X3 at a station without geometry, new and already stored. *)
Lemma geometry_is_read_only_to_store_witness :
  p_geometry no_geometry = None
  /\ process_place small_angle lat0 lon0 None None (QType "train_station")
       [("X", x_entry)] no_geometry
     = Raise (KeyError "geometry")
  /\ process_place small_angle lat0 lon0 None None (QType "train_station")
       [("N", x_entry)] no_geometry
     = Ok [("N", x_entry)].
Proof.
  split; [reflexivity |]. split.
  - refine (proj1 (geometry_is_read_only_to_store small_angle lat0 lon0
                     None None (QType "train_station") [("X", x_entry)]
                     no_geometry eq_refl) "N" _ eq_refl).
    repeat split; discriminate.
  - refine (proj2 (geometry_is_read_only_to_store small_angle lat0 lon0
                     None None (QType "train_station") [("N", x_entry)]
                     no_geometry eq_refl) _).
    intros id (Hid & _). injection Hid as <-. reflexivity.
Defined.

(** ** Accumulation *)

(** X4.  The members a run has after some of its queries stay as they are,
    in their places, whatever queries follow: the result of the queries
    [qs1] is the beginning of the result of [qs1] followed by [qs2]. *)
Theorem members_accumulate :
  forall (M : mathlib) (fetch : params -> result places_payload)
         (lat lon : float) (radius : Z) (origin_lat origin_lon : option float)
         (qs1 qs2 : list query),
  let run := run_queries M fetch lat lon radius origin_lat origin_lon in
  exists added,
    member (fst (run (qs1 ++ qs2) [] []))
    = member (fst (run qs1 [] [])) ++ added.
Proof.
  intros M fetch lat lon radius olat olon qs1 qs2 run. subst run.
  rewrite !run_loop_state, !returned_member, loop_state_app.
  destruct (loop_state M fetch lat lon radius olat olon qs1 [] [])
    as [[d1 l1] [e|]]; simpl.
  - exists []. now rewrite app_nil_r.
  - destruct (loop_state M fetch lat lon radius olat olon qs2 d1 l1)
      as [[d2 l2] err] eqn:H2.
    destruct (loop_state_extends _ _ _ _ _ _ _ _ _ _ _ _ _ H2) as [added ->].
    exists (dict_values added). simpl. unfold dict_values. apply map_app.
Qed.

(** ** Completeness *)

(** X5.  When a run returns no error, nothing that could be stored is lost:
    every candidate returned by one of the seven queries that has an
    identifier and a mode has its identifier among the members. *)
Theorem nothing_storable_is_lost :
  forall (M : mathlib) (fetch : params -> result places_payload)
         (lat lon : float) (radius : Z) (origin_lat origin_lon : option float),
  let r := fst (get_google_places_data M fetch lat lon radius
                  origin_lat origin_lon) in
  error r = None ->
  forall q pl id,
    In q queries -> In pl (offered fetch lat lon radius q) -> storable pl id ->
    exists e, In e (member r) /\ tp_google_place_id e = id.
Proof.
  intros M fetch lat lon radius olat olon r. subst r.
  unfold get_google_places_data. rewrite run_loop_state, returned_error.
  rewrite returned_member.
  destruct (loop_state M fetch lat lon radius olat olon queries [] [])
    as [[d log] err] eqn:Hl. simpl. intros ->.
  apply loop_state_steps in Hl.
  pose proof (Inv_steps M lat lon olat olon _ _ _ _
                (Inv_nil M lat lon olat olon) Hl) as [_ Hent Hcomp].
  cbn [app] in Hent, Hcomp.
  intros q pl id Hq Hpl (Hid & Htr & Hm).
  assert (Hmem : dict_mem id d = true).
  { apply (Hcomp q pl id); trivial.
    unfold candidates. apply in_flat_map. exists q. split; trivial.
    now apply in_map. }
  apply dict_mem_In in Hmem. unfold dict_keys in Hmem.
  apply in_map_iff in Hmem as ([k e] & Hk & Hin). simpl in Hk. subst k.
  exists e. split.
  - unfold dict_values. apply in_map_iff. now exists (id, e).
  - symmetry. apply (Hent id e Hin).
Qed.

(** X5 at the run of [manchester]: the bus station of the last query. *)
Lemma nothing_storable_is_lost_witness :
  error (fst (run manchester None None)) = None
  /\ In shudehill (offered manchester lat0 lon0 1500 bus_stop_query)
  /\ storable shudehill "S"
  /\ exists e, In e (member (fst (run manchester None None)))
               /\ tp_google_place_id e = "S".
Proof.
  assert (He : error (fst (run manchester None None)) = None) by reflexivity.
  assert (Hin : In shudehill (offered manchester lat0 lon0 1500 bus_stop_query))
    by (vm_compute; auto).
  assert (Hs : storable shudehill "S") by (repeat split; discriminate).
  split; [exact He |]. split; [exact Hin |]. split; [exact Hs |].
  refine (nothing_storable_is_lost small_angle manchester lat0 lon0 1500%Z
            None None He bus_stop_query shudehill "S" _ Hin Hs).
  vm_compute. auto 10.
Defined.

(** ** Answers that bring nothing *)

(** X6.  A query answered with no candidate and no exception (a status
    that is not OK, or OK with no list of results or an empty one) has no
    part in the result: the members and the error are those of the run
    without that query. *)
Theorem barren_query_changes_nothing :
  forall (M : mathlib) (fetch : params -> result places_payload)
         (lat lon : float) (radius : Z) (origin_lat origin_lon : option float)
         (qs1 qs2 : list query) (q : query),
  barren (fetch (params_of lat lon radius q)) ->
  let run := run_queries M fetch lat lon radius origin_lat origin_lon in
  fst (run (qs1 ++ q :: qs2) [] []) = fst (run (qs1 ++ qs2) [] []).
Proof.
  intros M fetch lat lon radius olat olon qs1 qs2 q Hb run. subst run.
  rewrite !run_loop_state, !loop_state_app.
  destruct (loop_state M fetch lat lon radius olat olon qs1 [] [])
    as [[d1 l1] [e|]]; trivial.
  simpl.
  destruct (try_query_barren M fetch lat lon radius olat olon q d1 Hb)
    as [evs ->].
  destruct (loop_state_log M fetch lat lon radius olat olon qs2 d1
              (l1 ++ evs) l1) as [Hd He].
  destruct (loop_state M fetch lat lon radius olat olon qs2 d1 (l1 ++ evs))
    as [[d2 l2] e2],
    (loop_state M fetch lat lon radius olat olon qs2 d1 l1) as [[d3 l3] e3].
  simpl in *. subst. now destruct e3.
Qed.

(** X6 at the refused bus_station query of [manchester]. *)
Lemma barren_query_changes_nothing_witness :
  barren (manchester (params_of lat0 lon0 1500 (QType "bus_station")))
  /\ fst (run manchester None None)
     = fst (run_queries small_angle manchester lat0 lon0 1500 None None
              (firstn 5 queries ++ [bus_stop_query]) [] []).
Proof.
  assert (Hb : barren (manchester (params_of lat0 lon0 1500
                                     (QType "bus_station")))).
  { eexists _, "OVER_QUERY_LIMIT". repeat split. left. discriminate. }
  split; [exact Hb |].
  exact (barren_query_changes_nothing small_angle manchester lat0 lon0 1500%Z
           None None (firstn 5 queries) [bus_stop_query] (QType "bus_station")
           Hb).
Defined.

(** ** The classification and the list of types *)

(** X7.  The mode depends on the types of a candidate as a set: two lists
    with the same elements, in any order and any number of times, give the
    same mode. *)
Theorem classify_sees_types_as_a_set :
  forall (name : string) (types1 types2 : list string),
  (forall t, In t types1 <-> In t types2) ->
  classify name types1 = classify name types2.
Proof.
  intros name t1 t2 H. unfold classify.
  now rewrite !(list_in_ext _ t1 t2 H).
Qed.

(** X7 at the types of the Metrolink stop, turned round and repeated. *)
Lemma classify_sees_types_as_a_set_witness :
  classify "piccadilly" ["light_rail_station"; "train_station"]
  = classify "piccadilly"
      ["train_station"; "light_rail_station"; "train_station"].
Proof.
  apply classify_sees_types_as_a_set.
  intros t. simpl. tauto.
Defined.

(** X8.  A candidate with the type train_station always gets a mode, never
    that of a bus stop, and "tram" in its name does not make it a tram stop:
    it is one only by "metrolink" in the name or by the type
    light_rail_station, with no subway_station among the types. *)
Theorem train_station_with_tram_in_its_name :
  forall (name : string) (types : list string),
  Str.list_in "train_station" types = true ->
  match classify (Str.lower name) types with
  | Some train_station =>
      Str.contains_ci "metrolink" name = false
      /\ Str.list_in "subway_station" types = false
      /\ Str.list_in "light_rail_station" types = false
  | Some tram_stop =>
      Str.contains_ci "metrolink" name = true
      \/ (Str.list_in "subway_station" types = false
          /\ Str.list_in "light_rail_station" types = true)
  | Some tube_station =>
      Str.contains_ci "metrolink" name = false
      /\ Str.list_in "subway_station" types = true
  | Some bus_stop | None => False
  end.
Proof.
  intros name types Ht. rewrite classify_first_match.
  unfold Spec.mode_of, Spec.rules, Spec.first_match. rewrite Ht.
  destruct (Str.contains_ci "metrolink" name); [now left |].
  destruct (Str.list_in "subway_station" types); [now split |].
  destruct (Str.list_in "light_rail_station" types); [right; now split |].
  rewrite andb_false_r. now repeat split.
Qed.

(** X8 at a train station called after a tramway. *)
Lemma train_station_with_tram_in_its_name_witness :
  Str.list_in "train_station" ["train_station"; "transit_station"] = true
  /\ classify (Str.lower "Tramway Halt") ["train_station"; "transit_station"]
     = Some train_station.
Proof.
  split; [reflexivity |].
  pose proof (train_station_with_tram_in_its_name "Tramway Halt"
                ["train_station"; "transit_station"] eq_refl) as H.
  destruct (classify (Str.lower "Tramway Halt")
              ["train_station"; "transit_station"]) as [[| | |]|] eqn:E;
    try reflexivity; try contradiction; vm_compute in E; discriminate.
Defined.

(** ** The distances of a lookup *)

(** X9.  In a lookup the distances are measured from the resolved
    location to the stored coordinates of each place, when neither
    coordinate of the resolved location is a zero; when one of them is a
    zero, on the meridian or on the equator, no place of the lookup has a
    distance. *)
Theorem lookup_distances_are_from_the_resolved_location :
  forall (M : mathlib) (geocode_fetch : string -> result geocode_payload)
         (places_fetch : params -> result places_payload)
         (pc : string) (radius_m : Z)
         (l : location_data) (data : aggregated) (e : transport_place),
  fst (lookup M geocode_fetch places_fetch pc radius_m) = Found l data ->
  In e (member data) ->
  (PyFloat.truthy (latitude l) = true ->
   PyFloat.truthy (longitude l) = true ->
   exists n,
     haversine M (latitude l) (longitude l) (tp_latitude e) (tp_longitude e)
     = Ok n
     /\ tp_distance e = Some n)
  /\ (PyFloat.truthy (latitude l) = false
      \/ PyFloat.truthy (longitude l) = false ->
      tp_distance e = None).
Proof.
  intros M gf pf pc radius_m l data e. unfold lookup.
  destruct (get_google_geocode_data gf pc) as [[l'|msg] evs];
    [|discriminate].
  destruct (get_google_places_data M pf (latitude l') (longitude l') radius_m
              (Some (latitude l')) (Some (longitude l')))
    as [data' evs'] eqn:Hrun.
  simpl. intros [= <- <-] Hin.
  assert (Hin' : In e (member (fst (get_google_places_data M pf (latitude l')
                   (longitude l') radius_m (Some (latitude l'))
                   (Some (longitude l'))))))
    by now rewrite Hrun.
  destruct (member_distance _ _ _ _ _ _ _ _ Hin') as (Hd & _ & Hz).
  split.
  - intros Ha Hb. now apply (Hd (latitude l') (longitude l')).
  - intros [H | H].
    + apply (Hz (latitude l')); auto.
    + apply (Hz (longitude l')); auto.
Qed.

(** X9 at a lookup in Manchester. *)
Lemma lookup_distances_are_from_the_resolved_location_witness :
  exists l data e n,
    fst (lookup small_angle GeoFixture.resolves manchester "M1 1RG" 1500)
    = Found l data
    /\ In e (member data)
    /\ PyFloat.truthy (latitude l) = true
    /\ PyFloat.truthy (longitude l) = true
    /\ tp_distance e = Some n.
Proof.
  destruct (fst (lookup small_angle GeoFixture.resolves manchester "M1 1RG"
                   1500)) as [msg | l data] eqn:H;
    [vm_compute in H; discriminate |].
  assert (Hl : latitude l = lat0 /\ longitude l = lon0)
    by (vm_compute in H; injection H as <- _; now split).
  destruct Hl as [Hla Hlo].
  destruct (member data) as [|e es] eqn:Hm;
    [vm_compute in H; injection H as _ <-; discriminate |].
  assert (Hin : In e (member data)) by (rewrite Hm; now left).
  assert (Ha : PyFloat.truthy (latitude l) = true) by now rewrite Hla.
  assert (Hb : PyFloat.truthy (longitude l) = true) by now rewrite Hlo.
  destruct (proj1 (lookup_distances_are_from_the_resolved_location
                     small_angle GeoFixture.resolves manchester "M1 1RG"
                     1500%Z l data e H Hin) Ha Hb) as (n & _ & Hn).
  exists l, data, e, n. now repeat split.
Defined.

(** ** The geocode resolver *)

(** X10.  The resolver returns a location exactly when the request returns
    a body whose status is OK and whose list of results is not empty, and
    the first result can be read; it then shows nothing.  The location is
    read from the first result alone: its coordinates, its address or else
    the postcode asked for, and the first name of each administrative level
    in its address components. *)
Theorem a_location_comes_from_the_first_result :
  forall (geocode_fetch : string -> result geocode_payload)
         (pc : string) (l : location_data) (evs : list event),
  (get_google_geocode_data geocode_fetch pc = (Location l, evs)
   <-> evs = [GeocodeGet pc]
       /\ exists data first rest,
            geocode_fetch pc = Ok data
            /\ gp_status data = Some "OK"
            /\ gp_results data = Some (first :: rest)
            /\ location_of pc first = Ok l)
  /\ (forall first,
        location_of pc first = Ok l ->
        postcode l = pc
        /\ formatted_address l = get_default (gr_formatted_address first) pc
        /\ exists g loc comps,
             gr_geometry first = Some g /\ gm_location g = Some loc
             /\ ll_lat loc = Some (latitude l)
             /\ ll_lng loc = Some (longitude l)
             /\ gr_address_components first = Some comps
             /\ first_long_name "administrative_area_level_2" comps
                = Ok (admin_district l)
             /\ first_long_name "administrative_area_level_1" comps
                = Ok (region l)).
Proof.
  intros gf pc l evs. split; [|intros first; apply location_of_fields].
  unfold get_google_geocode_data, geocode_body, no_location. split.
  - destruct (gf pc) as [data|[m|m]] eqn:Hf; simpl; try discriminate.
    destruct (gp_status data) as [status|] eqn:Hs; simpl; try discriminate.
    destruct (String.eqb status "OK") eqn:Hok; simpl.
    + apply String.eqb_eq in Hok. subst status.
      destruct (gp_results data) as [[|first rest]|] eqn:Hr; simpl;
        try discriminate.
      destruct (location_of pc first) as [l'|[m|m]] eqn:Hl; simpl;
        try discriminate.
      intros [= <- <-]. split; [reflexivity |].
      exists data, first, rest. repeat split; assumption.
    + destruct (String.eqb status "ZERO_RESULTS"); discriminate.
  - intros (-> & data & first & rest & -> & Hs & Hr & Hl). simpl.
    rewrite Hs. simpl. rewrite Hr. simpl. now rewrite Hl.
Qed.

(** X10 at the geocoding service that resolves every postcode. *)
Lemma a_location_comes_from_the_first_result_witness :
  let l := {| latitude := 53.4794%float; longitude := (-2.2453)%float;
              postcode := "M1 1RG";
              formatted_address := "Manchester M1 1RG, UK";
              admin_district := Some "Greater Manchester";
              region := Some "England" |} in
  get_google_geocode_data GeoFixture.resolves GeoFixture.postcode
  = (Location l, [GeocodeGet GeoFixture.postcode]).
Proof.
  intros l.
  apply (proj2 (proj1 (a_location_comes_from_the_first_result
                         GeoFixture.resolves GeoFixture.postcode l
                         [GeocodeGet GeoFixture.postcode]))).
  split; [reflexivity |].
  eexists _, _, _. repeat split; reflexivity.
Defined.

(** X11.  The search for the name of an administrative level stops at the
    first address component of that level: the components after it are not
    read, well formed or not.  Without a component of the level the name is
    absent, and a component without types met before any match raises
    KeyError('types'). *)
Theorem first_long_name_stops_at_the_first_match :
  forall (level : string) (before : list address_component),
  Forall (other_level level) before ->
  (forall comp after tys n,
     ac_types comp = Some tys -> Str.list_in level tys = true ->
     ac_long_name comp = Some n ->
     first_long_name level (before ++ comp :: after) = Ok (Some n))
  /\ first_long_name level before = Ok None
  /\ (forall comp after,
        ac_types comp = None ->
        first_long_name level (before ++ comp :: after)
        = Raise (KeyError "types")).
Proof.
  intros level before H.
  induction H as [|c before (tys & Ht & Hn) _ IH]; simpl.
  - repeat split; trivial.
    + intros comp after tys n Ht Hin Hl. now rewrite Ht, Hl; simpl; rewrite Hin.
    + intros comp after Ht. now rewrite Ht.
  - rewrite Ht. simpl. rewrite Hn. exact IH.
Qed.

(** X11 at a county followed by a component without types. *)
Lemma first_long_name_stops_at_the_first_match_witness :
  Forall (other_level "administrative_area_level_2") [ComponentFixture.town]
  /\ first_long_name "administrative_area_level_2"
       [ComponentFixture.town; ComponentFixture.county; ComponentFixture.broken]
     = Ok (Some "Greater Manchester")
  /\ first_long_name "administrative_area_level_2"
       [ComponentFixture.town; ComponentFixture.broken; ComponentFixture.county]
     = Raise (KeyError "types").
Proof.
  assert (H : Forall (other_level "administrative_area_level_2")
                [ComponentFixture.town]).
  { repeat constructor. now exists ["postal_town"]. }
  split; [exact H |]. split.
  - exact (proj1 (first_long_name_stops_at_the_first_match _ _ H)
             ComponentFixture.county [ComponentFixture.broken] _ _
             eq_refl eq_refl eq_refl).
  - exact (proj2 (proj2 (first_long_name_stops_at_the_first_match _ _ H))
             ComponentFixture.broken [ComponentFixture.county] eq_refl).
Defined.

(** ** The lookup flow *)

(** X12.  A lookup sends requests to the places service only when the
    resolver returned a location: after any error result it sends none, and
    after a location it runs the aggregator centred on the resolved
    coordinates, with the same coordinates as the origin of the distances. *)
Theorem lookup_asks_places_only_for_a_location :
  forall (M : mathlib) (geocode_fetch : string -> result geocode_payload)
         (places_fetch : params -> result places_payload)
         (pc : string) (radius_m : Z),
  let resolved := get_google_geocode_data geocode_fetch pc in
  let looked := lookup M geocode_fetch places_fetch pc radius_m in
  match fst resolved with
  | GeoError msg =>
      fst looked = NoLocation msg /\ places_requests (snd looked) = []
  | Location l =>
      let run := get_google_places_data M places_fetch
                   (latitude l) (longitude l) radius_m
                   (Some (latitude l)) (Some (longitude l)) in
      fst looked = Found l (fst run)
      /\ snd looked = snd resolved ++ snd run
      /\ places_requests (snd looked) = places_requests (snd run)
  end.
Proof.
  intros M gf pf pc radius_m resolved looked. subst resolved looked.
  unfold lookup.
  pose proof (geocode_sends_no_places_request gf pc) as Hg.
  destruct (get_google_geocode_data gf pc) as [[l|msg] evs]; simpl in *.
  - destruct (get_google_places_data M pf (latitude l) (longitude l) radius_m
                (Some (latitude l)) (Some (longitude l))) as [data evs'].
    simpl. repeat split. now rewrite places_requests_app, Hg.
  - split; trivial. now rewrite places_requests_app, Hg.
Qed.

(** ** Places at the same distance *)

(** X13.  The sort is stable: under a mode, the places at one distance,
    and those without a distance, are shown in the order they have among
    the members, which is the order the aggregator stored them in. *)
Theorem equal_distances_keep_the_order_of_the_members :
  forall (members : list transport_place) (pt_key : app_type)
         (distance : option Z),
  let same := fun pl =>
    key_eqb (distance_key pl)
      (match distance with Some d => Finite d | None => Infinity end) in
  filter same (stations_by_type members pt_key)
  = filter same
      (filter (fun pl => app_type_eqb (tp_type pl) pt_key) members).
Proof.
  intros members pt_key distance same. subst same.
  unfold stations_by_type. apply list_sort_stable.
Qed.

(** ** The map *)

(** X14.  The map holds, in this order, the marker of the postcode, the
    groups of the train stations, the bus stops, the underground stations
    and the tram stops, and the layer control.  Each group holds one marker
    for every member of its mode, in the order of the members, with the
    colour, the icon and the tooltip of the mode, the icon of a tram stop
    being [tram] and not the [train] of its configuration; so a member has
    one marker, and no member is left off the map. *)
Theorem the_map_has_one_marker_for_every_member :
  forall (legend_html : string) (l : location_data) (data : aggregated),
  let members := member data in
  map_children (create_transport_map legend_html l data)
  = [ MarkerChild (home_marker l);
      GroupChild
        {| fg_name := "Train Stations";
           fg_markers := map (pin "green" "train" "Train Station")
                           (of_type train_station members) |};
      GroupChild
        {| fg_name := "Bus Stops";
           fg_markers := map (pin "orange" "bus" "Bus Stop")
                           (of_type bus_stop members) |};
      GroupChild
        {| fg_name := "Underground Stations";
           fg_markers := map (pin "purple" "subway" "Underground Station")
                           (of_type tube_station members) |};
      GroupChild
        {| fg_name := "Tram Stops";
           fg_markers := map (pin "darkred" "tram" "Tram Stop")
                           (of_type tram_stop members) |};
      LayerControl ]
  /\ Permutation members
       (of_type train_station members ++ of_type tube_station members
        ++ of_type bus_stop members ++ of_type tram_stop members).
Proof.
  intros legend_html l data members. split; [|apply of_type_partition].
  unfold create_transport_map. cbn [map_children].
  change transport_groups with (groups_with [] [] [] []).
  now rewrite fold_add_place.
Qed.

(** X14 at six members, five bus stops around one train station. *)
Lemma the_map_has_one_marker_for_every_member_witness :
  exists buses,
    map_children (create_transport_map "" PageFixture.here PageFixture.data)
    = [ MarkerChild (home_marker PageFixture.here);
        GroupChild
          {| fg_name := "Train Stations";
             fg_markers := [ pin "green" "train" "Train Station"
                               (Greenwich.found (Some 5%Z)) ] |};
        GroupChild {| fg_name := "Bus Stops"; fg_markers := buses |};
        GroupChild {| fg_name := "Underground Stations"; fg_markers := [] |};
        GroupChild {| fg_name := "Tram Stops"; fg_markers := [] |};
        LayerControl ]
    /\ List.length buses = 5%nat.
Proof.
  eexists. split.
  - exact (proj1 (the_map_has_one_marker_for_every_member ""
                    PageFixture.here PageFixture.data)).
  - reflexivity.
Defined.

(** ** The details *)

(** X15.  With a member in the transport data, the page shows the two tabs,
    under a warning when a query failed.  The details hold one expander for
    every member: under each mode in the order train, underground, bus,
    tram, the members of the mode sorted by distance.  A mode has its
    heading exactly when it has a member, and neither of the messages of
    lines 435 and 437 is shown. *)
Theorem the_details_list_every_member_once :
  forall (str_float format_5f : float -> string) (legend_html : string)
         (radius_km : float) (formatted_postcode : string)
         (l : location_data) (data : aggregated),
  member data <> [] ->
  let members := member data in
  let listed :=
    flat_map (stations_by_type members) (map fst transport_types_display) in
  let details := details_tab str_float format_5f radius_km data in
  show_transport_data str_float format_5f legend_html radius_km
    formatted_postcode l data
  = match error data with
    | Some e =>
        [ st_warning
            ("Partial data shown due to an error during transport data fetch: "
             ++ e) ]
    | None => []
    end
    ++ [ st_tabs
           [ ("Transport Map",
              [ folium_static (create_transport_map legend_html l data) 600 ]);
             ("Station Details", details) ] ]
  /\ filter is_expander details = map (station_expander format_5f) listed
  /\ Permutation members listed
  /\ subheaders details
     = map snd (filter (fun e => has_station members (fst e))
                  transport_types_display)
  /\ filter is_info details = [].
Proof.
  intros str_float format_5f legend_html radius_km pc l data Hne
    members listed details.
  subst listed details. unfold show_transport_data, details_tab.
  fold members. destruct members as [|m ms] eqn:Hm; [contradiction |].
  rewrite <- Hm.
  destruct (type_sections_shown format_5f members transport_types_display)
    as (H1 & H2 & H3 & H4).
  cbv zeta in H1, H2, H3, H4.
  assert (Hany : existsb (has_station members)
                   (map fst transport_types_display) = true).
  { apply existsb_exists. exists (tp_type m). split.
    - cbn. destruct (tp_type m); auto.
    - apply has_station_In. rewrite Hm. now left. }
  rewrite H4, Hany, app_nil_r.
  split; [reflexivity |]. split; [exact H1 |]. split; [|split; assumption].
  rewrite (of_type_partition members) at 1. cbn [transport_types_display map
    flat_map fst]. rewrite app_nil_r.
  repeat apply Permutation_app; apply stations_by_type_perm.
Qed.

(** X15 at six members, a query having failed. *)
Lemma the_details_list_every_member_once_witness :
  member PageFixture.data <> []
  /\ subheaders (details_tab PageFixture.no_digits PageFixture.no_digits
                   1.5 PageFixture.data)
     = ["Train Stations"; "Bus Stops"]
  /\ filter is_info (details_tab PageFixture.no_digits PageFixture.no_digits
                       1.5 PageFixture.data) = [].
Proof.
  assert (H : member PageFixture.data <> []) by discriminate.
  split; [exact H |].
  destruct (the_details_list_every_member_once PageFixture.no_digits
              PageFixture.no_digits "" 1.5%float "M1 1RG" PageFixture.here
              PageFixture.data H) as (_ & _ & _ & Hs & Hi).
  split; [exact Hs | exact Hi].
Defined.
